(** * federa: the group actor (src/federa/group.py)

    A shallow embedding of the activity handlers of the federated group
    actor: Follow, Undo, Create and Delete, the announce retrieval endpoint
    and the administrative group registration, over the three tables the
    handlers read and write through [db.engine].

    Conventions.
    - A Python value is a [pyval]; a decoded JSON object is a [pydict], an
      association list looked up by key as [dict.get] does.  JSON numbers
      are modelled by integers: no handler branch inspects a number.
    - A [str] is a Rocq [string], one [ascii] per character.
    - The storage engine is the keyed store the code uses it as: each table
      is a finite map from the primary key [id] to a row; [engine.save]
      without a condition writes the row under its key, [engine.delete]
      removes the row of that key (the map's [base.delete]; the plain name
      [delete] is the Delete handler's), and a query enumerates the rows
      that match its key and filter.
    - The external collaborators ([accept_object], [announce_object],
      [print]) are recorded as logs of their calls in the [world].
    - [uuid4()] is an explicit argument of the handler that calls it.
    - [url_for], [json.dumps], [json.loads], [jsonify] and
      [activityjsonify] are parameters of the development. *)

From Stdlib Require Import ZArith Ascii String.
From stdpp Require Import gmap strings list fin_maps.

Set Warnings "-register-all".

Local Open Scope string_scope.
Local Open Scope Z_scope.

(** ** Python values *)

Inductive pyval : Type :=
  | PNone
  | PBool (b : bool)
  | PInt (z : Z)
  | PStr (s : string)
  | PList (l : list pyval)
  | PTuple (l : list pyval)
  | PDict (d : list (string * pyval)).

Abbreviation pydict := (list (string * pyval)).

(** [d.get(k, default)] returns the default only when the key is absent. *)
Fixpoint dict_get (k : string) (d : pydict) : option pyval :=
  match d with
  | [] => None
  | (k', v) :: d' => if String.eqb k k' then Some v else dict_get k d'
  end.

(** [d.get(k)]: [None] when the key is absent. *)
Definition py_get (k : string) (d : pydict) : pyval :=
  match dict_get k d with
  | Some v => v
  | None => PNone
  end.

(** Python's [==] on decoded values: [bool] is a subtype of [int], lists and
    tuples compare element by element and never with each other, dicts
    compare as finite maps. *)
Fixpoint py_eq (a b : pyval) {struct a} : bool :=
  match a, b with
  | PNone, PNone => true
  | PBool x, PBool y => Bool.eqb x y
  | PBool x, PInt y => Z.eqb (Z.b2z x) y
  | PInt x, PBool y => Z.eqb x (Z.b2z y)
  | PInt x, PInt y => Z.eqb x y
  | PStr x, PStr y => String.eqb x y
  | PList xs, PList ys =>
      (fix go (xs ys : list pyval) {struct xs} : bool :=
         match xs, ys with
         | [], [] => true
         | x :: xs', y :: ys' => py_eq x y && go xs' ys'
         | _, _ => false
         end) xs ys
  | PTuple xs, PTuple ys =>
      (fix go (xs ys : list pyval) {struct xs} : bool :=
         match xs, ys with
         | [], [] => true
         | x :: xs', y :: ys' => py_eq x y && go xs' ys'
         | _, _ => false
         end) xs ys
  | PDict xs, PDict ys =>
      Nat.eqb (List.length xs) (List.length ys) &&
      (fix go (xs : pydict) {struct xs} : bool :=
         match xs with
         | [] => true
         | (k, v) :: xs' =>
             match dict_get k ys with
             | Some w => py_eq v w && go xs'
             | None => false
             end
         end) xs
  | _, _ => false
  end.

(** Truthiness, as [if not x] tests it. *)
Definition py_truthy (v : pyval) : bool :=
  match v with
  | PNone => false
  | PBool b => b
  | PInt z => negb (Z.eqb z 0)
  | PStr s => negb (String.eqb s EmptyString)
  | PList l | PTuple l => negb (Nat.eqb (List.length l) 0)
  | PDict d => negb (Nat.eqb (List.length d) 0)
  end.

(** [str.lower()] on the ASCII letters.  Outside ASCII Python's [lower]
    never produces one of the letters of ["follow"], so the comparison of
    the handler is the same. *)
Definition lower_ascii (c : ascii) : ascii :=
  let n := N_of_ascii c in
  if (N.leb 65 n && N.leb n 90)%bool then ascii_of_N (n + 32) else c.

Fixpoint lower (s : string) : string :=
  match s with
  | EmptyString => EmptyString
  | String c s' => String (lower_ascii c) (lower s')
  end.

(** ** Outcomes *)

(** The exceptions that escape a handler.  [EngineValueError] stands for
    the error of the storage client when a query or a save is handed a value
    that is not a string for one of the string columns, [EngineKeyError] for
    its error when a query on the primary key of the groups is handed the
    empty string, which the store does not take as a key. *)
Inductive exn : Type :=
  | AttributeError
  | TypeError
  | EngineValueError
  | EngineKeyError.

(** A handler returns a value, aborts the request with an HTTP status
    ([flask.abort]), or lets a Python exception escape. *)
Inductive result (A : Type) : Type :=
  | Ok (a : A)
  | Abort (code : Z) (msg : string)
  | Raise (e : exn).

Arguments Ok {A} a.
Arguments Abort {A} code msg.
Arguments Raise {A} e.

(** ** Rows of the three tables (federa.model) *)

(** Modelled from the spec: the declarations of [Group], [GroupMember] and
    [GroupActivity] in federa/model.py are not part of the sources at hand;
    the columns are those the handlers pass to the constructors and the
    primary key of each table is [id] (section 6 of the specification). *)
Record Group : Type := mkGroup {
  g_id : string;
  g_name : string;
  g_summary : string
}.

Record GroupMember : Type := mkGroupMember {
  gm_id : string;
  gm_follower_id : string;
  gm_group_id : string
}.

Record GroupActivity : Type := mkGroupActivity {
  ga_id : string;
  ga_type : string;
  ga_group_id : string;
  ga_object : string
}.

(** One call of [accept_object(group, follower, follow_activity)]. *)
Record accept_call : Type := mkAccept {
  accept_group : Group;
  accept_follower : string;
  accept_activity : pydict
}.

(** One call of [announce_object(group, members, activity_id, announce_uri)]. *)
Record announce_call : Type := mkAnnounce {
  announce_group : Group;
  announce_recipients : gset string;
  announce_object_id : pyval;
  announce_uri_arg : pyval
}.

(** ** The world the handlers act on *)

Record world : Type := mkWorld {
  groups : gmap string Group;
  members : gmap string GroupMember;
  activities : gmap string GroupActivity;
  accepts : list accept_call;
  announces : list announce_call;
  stdout : list string
}.

Definition empty_world : world :=
  mkWorld ∅ ∅ ∅ [] [] [].

(** ** A state and error monad for the handlers *)

Definition M (A : Type) : Type := world -> result A * world.

Definition ret {A} (a : A) : M A := fun w => (Ok a, w).

Definition bind {A B} (m : M A) (k : A -> M B) : M B :=
  fun w =>
    match m w with
    | (Ok a, w') => k a w'
    | (Abort c s, w') => (Abort c s, w')
    | (Raise e, w') => (Raise e, w')
    end.

Definition abort {A} (code : Z) (msg : string) : M A :=
  fun w => (Abort code msg, w).

Definition raise {A} (e : exn) : M A :=
  fun w => (Raise e, w).

Definition gets {A} (f : world -> A) : M A := fun w => (Ok (f w), w).

Definition modify (f : world -> world) : M unit := fun w => (Ok tt, f w).

Notation "'do' x <- m ; k" := (bind m (fun x => k))
  (at level 10, x name, m at level 100, k at level 200).
Notation "'exec' m ; k" := (bind m (fun _ => k))
  (at level 10, m at level 100, k at level 200).

(** A computation preserves an observation [f] of the world when [f] reads
    the same before and after it, whatever it returns. *)
Definition preserves {A B} (f : world -> B) (m : M A) : Prop :=
  forall w, f (m w).2 = f w.

(** ** The storage engine *)

Definition save_member (m : GroupMember) : M unit :=
  modify (fun w => mkWorld (groups w) (<[gm_id m := m]> (members w))
                     (activities w) (accepts w) (announces w) (stdout w)).

Definition delete_member (m : GroupMember) : M unit :=
  modify (fun w => mkWorld (groups w) (base.delete (gm_id m) (members w))
                     (activities w) (accepts w) (announces w) (stdout w)).

Definition save_activity (a : GroupActivity) : M unit :=
  modify (fun w => mkWorld (groups w) (members w)
                     (<[ga_id a := a]> (activities w))
                     (accepts w) (announces w) (stdout w)).

Definition save_group (g : Group) : M unit :=
  modify (fun w => mkWorld (<[g_id g := g]> (groups w)) (members w)
                     (activities w) (accepts w) (announces w) (stdout w)).

Definition log_accept (c : accept_call) : M unit :=
  modify (fun w => mkWorld (groups w) (members w) (activities w)
                     (accepts w ++ [c]) (announces w) (stdout w)).

Definition log_announce (c : announce_call) : M unit :=
  modify (fun w => mkWorld (groups w) (members w) (activities w)
                     (accepts w) (announces w ++ [c]) (stdout w)).

Definition print (line : string) : M unit :=
  modify (fun w => mkWorld (groups w) (members w) (activities w)
                     (accepts w) (announces w) (stdout w ++ [line])).

(** The rows of [GroupMember.by_follower] with key [follower_id == follower]
    and filter [group_id == gid]. *)
Definition is_edge (gid follower : string) (kv : string * GroupMember) : Prop :=
  gm_follower_id kv.2 = follower ∧ gm_group_id kv.2 = gid.

Global Instance is_edge_dec gid follower kv : Decision (is_edge gid follower kv).
Proof. unfold is_edge. apply _. Defined.

Definition edges (gid follower : string) (t : gmap string GroupMember)
  : gmap string GroupMember :=
  filter (is_edge gid follower) t.

(** [q.count] of that query. *)
Definition edge_count (gid follower : string) (t : gmap string GroupMember) : nat :=
  size (edges gid follower t).

(** [q.first()] of that query: the first row, [None] standing for the
    [ConstraintViolation] the engine raises when there is none. *)
Definition first_edge (gid follower : string) (t : gmap string GroupMember)
  : option GroupMember :=
  snd <$> head (map_to_list (edges gid follower t)).

(** The rows of [GroupMember.by_group] with key [group_id == gid]. *)
Definition in_group (gid : string) (kv : string * GroupMember) : Prop :=
  gm_group_id kv.2 = gid.

Global Instance in_group_dec gid kv : Decision (in_group gid kv).
Proof. unfold in_group. apply _. Defined.

(** [group_members(group_id)] *)
Definition group_members (gid : string) (t : gmap string GroupMember) : list string :=
  (fun kv : string * GroupMember => gm_follower_id kv.2)
    <$> map_to_list (filter (in_group gid) t).

(** [find_group(group_id)]: [q.one()] on the primary key, [None] when the
    engine raises [ConstraintViolation] because there is no such row.  For
    the empty id the query itself fails: that error is no
    [ConstraintViolation], so it escapes [find_group] and its caller. *)
Definition find_group (gid : string) : M (option Group) :=
  if String.eqb gid EmptyString then raise EngineKeyError
  else gets (fun w => groups w !! gid).

(** ** Helpers on Python values used by the handlers *)

(** Whether [hash(v)] succeeds: lists and dicts are unhashable, a tuple is
    hashable when its elements are. *)
Fixpoint py_hashable (v : pyval) : bool :=
  match v with
  | PList _ | PDict _ => false
  | PTuple l =>
      (fix go (l : list pyval) : bool :=
         match l with
         | [] => true
         | x :: l' => py_hashable x && go l'
         end) l
  | _ => true
  end.

(** [len(v)] *)
Definition py_len (v : pyval) : M nat :=
  match v with
  | PStr s => ret (String.length s)
  | PList l | PTuple l => ret (List.length l)
  | PDict d => ret (List.length d)
  | _ => raise TypeError
  end.

(** [p in s] on two strings *)
Fixpoint substringb (p s : string) : bool :=
  if String.prefix p s then true
  else match s with
       | EmptyString => false
       | String _ s' => substringb p s'
       end.

(** [k in v] for a string [k] *)
Definition py_contains (k : string) (v : pyval) : M bool :=
  match v with
  | PDict d => ret (bool_decide (is_Some (dict_get k d)))
  | PStr s => ret (substringb k s)
  | PList l | PTuple l => ret (existsb (fun x => py_eq x (PStr k)) l)
  | _ => raise TypeError
  end.

(** ** The collaborators taken as parameters *)

Class Env : Type := {
  (** [url_for(".actor", actor_id=gid, _external=True)] *)
  actor_url : string -> string;
  (** [url_for(".announce_activity", announce_id=aid, _external=True)] *)
  announce_url : string -> string;
  json_dumps : pyval -> string;
  json_loads : string -> pyval;
  (** [str(v)] as an f-string renders it *)
  py_str : pyval -> string;
  (** a Flask response *)
  response : Type;
  jsonify : pyval -> response;
  (** [activityjsonify(v, add_context=b)] *)
  activityjsonify : pyval -> bool -> response
}.

Section Handlers.
Context `{Env}.

Definition done : pyval := PStr "done".

Definition dquote : string := String (ascii_of_nat 34) EmptyString.

Definition serialize_announce (announce : GroupActivity) : pyval :=
  PDict [ ("id", PStr (announce_url (ga_id announce)));
          ("type", PStr (ga_type announce));
          ("actor", PStr (actor_url (ga_group_id announce)));
          ("object", json_loads (ga_object announce)) ].

(** The default activity handler *)
Definition follow_default (group : Group) (activity : pydict) : M pyval :=
  exec print ("unknown activity " ++ dquote ++ py_str (py_get "type" activity) ++ dquote);
  ret PNone.

(** The Follow handler *)
Definition follow (group : Group) (follow_activity : pydict) (uuid4 : string)
  : M pyval :=
  let follower := py_get "actor" follow_activity in
  let target := py_get "object" follow_activity in
  if negb (py_eq target (PStr (actor_url (g_id group)))) then
    abort 400 "Wrong target"
  else
    match follower with
    | PStr follower_id =>
        do count <- gets (fun w => edge_count (g_id group) follower_id (members w));
        if (0 <? count)%nat then ret done
        else
          exec save_member (mkGroupMember uuid4 follower_id (g_id group));
          exec log_accept (mkAccept group follower_id follow_activity);
          ret done
    | _ => raise EngineValueError
    end.

(** The Undo handler *)
Definition undo (group : Group) (undo_activity : pydict) : M pyval :=
  let follower := py_get "actor" undo_activity in
  let action :=
    match dict_get "object" undo_activity with
    | Some v => v
    | None => PDict []
    end in
  match action with
  | PDict action_d =>
      match py_get "type" action_d with
      | PStr ty =>
          if negb (String.eqb (lower ty) "follow") then ret done
          else if negb (py_eq (py_get "actor" action_d) follower) then
            abort 400 "Inconsistant follow activity"
          else
            let target := py_get "object" action_d in
            if negb (py_eq target (PStr (actor_url (g_id group)))) then
              abort 400 "Wrong target"
            else
              match follower with
              | PStr follower_id =>
                  do q <- gets (fun w => first_edge (g_id group) follower_id (members w));
                  match q with
                  | None => ret done
                  | Some membership =>
                      exec delete_member membership;
                      ret done
                  end
              | _ => raise EngineValueError
              end
      | _ => raise AttributeError
      end
  | _ => raise AttributeError
  end.

(** The Create handler *)
Definition create (group : Group) (create_activity : pydict) (uuid4 : string)
  : M pyval :=
  let activity_details := py_get "object" create_activity in
  match activity_details with
  | PNone => abort 400 "activity not detailed"
  | _ =>
      do activity_id <-
        match activity_details with
        | PStr _ => ret activity_details
        | PDict d => ret (py_get "id" d)
        | _ => raise AttributeError
        end;
      match activity_id with
      | PNone => abort 400 "not external activity id"
      | _ =>
          let actor := py_get "actor" create_activity in
          do members <- gets (fun w =>
              (list_to_set (group_members (g_id group) (members w)) : gset string));
          match actor with
          | PStr a =>
              if bool_decide (a ∈ members) then
                let members := members ∖ {[a]} in
                let announce_id := uuid4 in
                let announce_uri := PTuple [PStr (announce_url announce_id)] in
                exec log_announce (mkAnnounce group members activity_id announce_uri);
                let announce :=
                  mkGroupActivity announce_id "Announce" (g_id group)
                    (json_dumps activity_id) in
                exec save_activity announce;
                ret (serialize_announce announce)
              else abort 401 "actor needs to be member of the group"
          | _ =>
              if py_hashable actor then
                abort 401 "actor needs to be member of the group"
              else raise TypeError
          end
      end
  end.

(** The Delete handler *)
Definition delete (group : Group) (follow_activity : pydict) : M pyval :=
  exec print ("created " ++ g_id group);
  ret PNone.

(** The followers list *)
Definition followers (group : Group) : M pyval :=
  do total_items <- gets (fun w => size (filter (in_group (g_id group)) (members w)));
  do ordered_items <-
    (if (0 <? total_items)%nat
     then gets (fun w => group_members (g_id group) (members w))
     else ret []);
  ret (PDict [ ("type", PStr "OrderedCollection");
               ("totalItems", PInt (Z.of_nat total_items));
               ("orderedItems", PList (PStr <$> ordered_items)) ]).

(** The retrieval endpoint of an announce *)
Definition announce_activity (announce_id : string) : M response :=
  do q <- gets (fun w => activities w !! announce_id);
  match q with
  | None => abort 404 EmptyString
  | Some announce =>
      if negb (String.eqb (ga_type announce) "Announce") then abort 404 EmptyString
      else ret (activityjsonify (serialize_announce announce) true)
  end.

(** The registration of a group; [request_json] is [request.json], [PNone]
    when the request has no JSON body.  The handler runs behind
    [check_logged_in]. *)
Definition make_group (request_json : pyval) : M response :=
  if negb (py_truthy request_json) then abort 400 "Needs group_name"
  else
    do present <- py_contains "group_name" request_json;
    if negb present then abort 400 "Needs group_name"
    else
      match request_json with
      | PDict d =>
          let group_name := py_get "group_name" d in
          let name :=
            match dict_get "name" d with Some v => v | None => group_name end in
          let summary :=
            match dict_get "summary" d with Some v => v | None => PStr EmptyString end in
          do n <- py_len group_name;
          if (128 <? n)%nat then abort 400 "group_name too long"
          else
            do n <- py_len name;
            if (256 <? n)%nat then abort 400 "group_name too long"
            else
              do n <- py_len summary;
              if (2560 <? n)%nat then abort 400 "summary too long"
              else
                match group_name with
                | PStr gid =>
                    do found <- find_group gid;
                    match found with
                    | Some _ => abort 403 EmptyString
                    | None =>
                        match name, summary with
                        | PStr n, PStr s =>
                            exec save_group (mkGroup gid n s);
                            ret (jsonify (PDict [("ok", PBool true)]))
                        | _, _ => raise EngineValueError
                        end
                    end
                | _ => raise EngineValueError
                end
      | _ => raise TypeError
      end.

End Handlers.

(** ** Dispatch *)

Inductive handler : Type :=
  | HFollow | HUndo | HCreate | HDelete | HDefault.

(** Modelled from the spec: the dispatcher of framework/actor_manager.py is
    not part of the sources at hand.  Dispatch is by exact match of the
    activity's [type] against the table the [register_activity] decorators
    of group.py fill; an unregistered type goes to the default handler. *)
Definition registered (ty : pyval) : handler :=
  match ty with
  | PStr s =>
      if String.eqb s "Follow" then HFollow
      else if String.eqb s "Undo" then HUndo
      else if String.eqb s "Create" then HCreate
      else if String.eqb s "Delete" then HDelete
      else HDefault
  | _ => HDefault
  end.

Definition process `{Env} (group : Group) (activity : pydict) (uuid4 : string)
  : M pyval :=
  match registered (py_get "type" activity) with
  | HFollow => follow group activity uuid4
  | HUndo => undo group activity
  | HCreate => create group activity uuid4
  | HDelete => delete group activity
  | HDefault => follow_default group activity
  end.

(** One request served: an activity processed for some group, with a
    [uuid4()] that is not yet a key of the tables, or a group registration.
    The read-only endpoints leave the world as it is. *)
Inductive step `{Env} : world -> world -> Prop :=
  | step_process group activity uuid4 w :
      members w !! uuid4 = None ->
      activities w !! uuid4 = None ->
      step w (process group activity uuid4 w).2
  | step_make_group request_json w :
      step w (make_group request_json w).2.

(** The store invariant of the data model: at most one membership edge for
    a (group, follower) pair. *)
Definition unique_edges (w : world) : Prop :=
  forall gid follower, (edge_count gid follower (members w) <= 1)%nat.

(** ** Well-addressed activities *)

(** A Follow by [follower] addressed to [group]: the actor is the follower
    and the object is the group's own actor URI. *)
Definition valid_follow `{Env} (group : Group) (follower : string)
    (activity : pydict) : Prop :=
  py_get "actor" activity = PStr follower /\
  py_get "object" activity = PStr (actor_url (g_id group)).

(** An Undo by [follower] of a Follow it addressed to [group]: the object
    is an embedded activity of a type that lower-cases to "follow", by the
    same actor, whose object is the group's own actor URI. *)
Definition valid_undo_follow `{Env} (group : Group) (follower : string)
    (activity : pydict) : Prop :=
  py_get "actor" activity = PStr follower /\
  exists (action : pydict) (ty : string),
    dict_get "object" activity = Some (PDict action) /\
    py_get "type" action = PStr ty /\
    lower ty = "follow" /\
    py_get "actor" action = PStr follower /\
    py_get "object" action = PStr (actor_url (g_id group)).

(** The object identifier a Create carries: the object itself when it is a
    string, the [id] of an embedded object otherwise. *)
Definition carries_object_id (activity : pydict) (oid : pyval) : Prop :=
  oid <> PNone /\
  ((exists s, py_get "object" activity = PStr s /\ oid = PStr s) \/
   (exists d, py_get "object" activity = PDict d /\ oid = py_get "id" d)).

(** The recipients of a Create by [actor]. *)
Definition recipients (group : Group) (actor : string) (w : world) : gset string :=
  list_to_set (group_members (g_id group) (members w)) ∖ {[actor]}.

(** The ledger row a Create writes. *)
Definition announce_row `{Env} (group : Group) (uuid4 : string) (oid : pyval)
  : GroupActivity :=
  mkGroupActivity uuid4 "Announce" (g_id group) (json_dumps oid).

(** The world after a Create by [actor] has gone through. *)
Definition announced `{Env} (group : Group) (actor uuid4 : string) (oid : pyval)
    (w : world) : world :=
  mkWorld (groups w) (members w)
    (<[uuid4 := announce_row group uuid4 oid]> (activities w))
    (accepts w)
    (announces w ++
       [mkAnnounce group (recipients group actor w) oid
          (PTuple [PStr (announce_url uuid4)])])
    (stdout w).

(** The world after a handler has run, and what the handler returned. *)
Definition outcome {A} (r : result A * world) : result A := r.1.
Definition after {A} (r : result A * world) : world := r.2.

(** ** A concrete instance, for the examples *)

Definition demo_dumps (v : pyval) : string :=
  match v with
  | PStr s => "s:" ++ s
  | _ => "null"
  end.

Definition demo_loads (s : string) : pyval :=
  if String.prefix "s:" s then PStr (String.substring 2 (String.length s - 2) s)
  else PNone.

Definition demo_str (v : pyval) : string :=
  match v with
  | PStr s => s
  | _ => "None"
  end.

Definition demo_env : Env := {|
  actor_url := fun gid => "https://federa.example/group/" ++ gid;
  announce_url := fun aid => "https://federa.example/group/activity/announce/" ++ aid;
  json_dumps := demo_dumps;
  json_loads := demo_loads;
  py_str := demo_str;
  response := pyval;
  jsonify := fun v => v;
  activityjsonify := fun v add_context =>
    match v, add_context with
    | PDict d, true =>
        PDict (("@context", PStr "https://www.w3.org/ns/activitystreams") :: d)
    | _, _ => v
    end
|}.

Definition book_club : Group := mkGroup "book-club" "Book Club" "reads books".

Definition alice : string := "https://peer/actors/alice".
Definition bob : string := "https://peer/actors/bob".
Definition carol : string := "https://peer/actors/carol".
Definition mallory : string := "https://peer/actors/mallory".

Definition book_club_url : string := @actor_url demo_env "book-club".

(** Follow(alice -> book-club) *)
Definition follow_alice : pydict :=
  [ ("type", PStr "Follow"); ("actor", PStr alice); ("object", PStr book_club_url) ].

(** Undo(Follow(alice -> book-club)) *)
Definition undo_follow_alice : pydict :=
  [ ("type", PStr "Undo"); ("actor", PStr alice); ("object", PDict follow_alice) ].

(** Follow(mallory -> book-club) and its Undo *)
Definition follow_mallory : pydict :=
  [ ("type", PStr "Follow"); ("actor", PStr mallory); ("object", PStr book_club_url) ].

Definition undo_follow_mallory : pydict :=
  [ ("type", PStr "Undo"); ("actor", PStr mallory); ("object", PDict follow_mallory) ].

(** An Undo that carries no object *)
Definition undo_without_object : pydict :=
  [ ("type", PStr "Undo"); ("actor", PStr alice) ].

(** An Undo whose object has no type *)
Definition undo_untyped_object : pydict :=
  [ ("type", PStr "Undo"); ("actor", PStr alice);
    ("object", PDict [("id", PStr "https://peer/activities/7")]) ].

(** Create by alice of the object https://peer/objects/42 *)
Definition create_by_alice : pydict :=
  [ ("type", PStr "Create"); ("actor", PStr alice);
    ("object", PStr "https://peer/objects/42") ].

(** A Create by a non-member that carries no object *)
Definition create_without_object : pydict :=
  [ ("type", PStr "Create"); ("actor", PStr mallory) ].

(** A Create by a non-member that carries an object *)
Definition create_by_mallory : pydict :=
  [ ("type", PStr "Create"); ("actor", PStr mallory);
    ("object", PStr "https://peer/objects/666") ].

(** book-club is registered and has the members alice, bob and carol. *)
Definition world_abc : world :=
  mkWorld {[ "book-club" := book_club ]}
    (<[ "m1" := mkGroupMember "m1" alice "book-club" ]>
     (<[ "m2" := mkGroupMember "m2" bob "book-club" ]>
      {[ "m3" := mkGroupMember "m3" carol "book-club" ]}))
    ∅ [] [] [].

(** As [world_abc], with one announce already in the ledger. *)
Definition world_ledger : world :=
  mkWorld (groups world_abc) (members world_abc)
    {[ "a1" := mkGroupActivity "a1" "Announce" "book-club" "s:https://peer/objects/1" ]}
    [] [] [].

(** What the Create of alice returns when it draws the uuid [uuid4]. *)
Definition announce_of_alice (uuid4 : string) : pyval :=
  PDict [ ("id", PStr (@announce_url demo_env uuid4));
          ("type", PStr "Announce");
          ("actor", PStr book_club_url);
          ("object", PStr "https://peer/objects/42") ].

(** A registration request *)
Definition book_club_request : pydict :=
  [ ("group_name", PStr "book-club"); ("name", PStr "Book Club");
    ("summary", PStr "reads books") ].

Definition register_book_club : pyval := PDict book_club_request.

(** ** The read-only views of the API *)

(** The rows of [GroupActivity.by_group] with key [group_id == gid]. *)
Definition activity_in_group (gid : string) (kv : string * GroupActivity) : Prop :=
  ga_group_id kv.2 = gid.

Global Instance activity_in_group_dec gid kv : Decision (activity_in_group gid kv).
Proof. unfold activity_in_group. apply _. Defined.

Section Views.
Context `{Env}.

(** [group_activity(group_id)] *)
Definition group_activity (gid : string) (t : gmap string GroupActivity)
  : list pyval :=
  (fun kv : string * GroupActivity => json_loads (ga_object kv.2))
    <$> map_to_list (filter (activity_in_group gid) t).

(** [GET /group/<group_name>] *)
Definition group_info (group_name : string) : M response :=
  do found <- find_group group_name;
  match found with
  | None => abort 404 EmptyString
  | Some group =>
      do members <- gets (fun w => group_members (g_id group) (members w));
      ret (jsonify (PDict [ ("group_name", PStr (g_id group));
                            ("name", PStr (g_name group));
                            ("summary", PStr (g_summary group));
                            ("members", PList (PStr <$> members)) ]))
  end.

(** [GET /group/<group_name>/activity]; the handler runs behind
    [check_logged_in]. *)
Definition group_info_activity (group_name : string) : M response :=
  do found <- find_group group_name;
  match found with
  | None => abort 404 EmptyString
  | Some group =>
      do activity <- gets (fun w => group_activity (g_id group) (activities w));
      ret (jsonify (PDict [ ("group_name", PStr (g_id group));
                            ("name", PStr (g_name group));
                            ("summary", PStr (g_summary group));
                            ("activity", PList activity) ]))
  end.

End Views.

(** ** Invariants of the tables *)

(** Every membership row is stored under its own [id]. *)
Definition rows_keyed (t : gmap string GroupMember) : Prop :=
  map_Forall (fun k m => gm_id m = k) t.

(** Every ledger row is stored under its own [id] and is an Announce. *)
Definition ledger_rows_ok (t : gmap string GroupActivity) : Prop :=
  map_Forall (fun k row => ga_id row = k /\ ga_type row = "Announce") t.

(** Every group is stored under its own [id]. *)
Definition groups_keyed (t : gmap string Group) : Prop :=
  map_Forall (fun k g => g_id g = k) t.

(** What the followers list shows for a list of follower ids. *)
Definition followers_collection (items : list string) : pyval :=
  PDict [ ("type", PStr "OrderedCollection");
          ("totalItems", PInt (Z.of_nat (List.length items)));
          ("orderedItems", PList (PStr <$> items)) ].

(** A Follow of mallory addressed to another actor *)
Definition follow_elsewhere : pydict :=
  [ ("type", PStr "Follow"); ("actor", PStr mallory);
    ("object", PStr "https://federa.example/group/chess-club") ].

(** An Undo by mallory of a Follow by alice *)
Definition undo_of_another : pydict :=
  [ ("type", PStr "Undo"); ("actor", PStr mallory); ("object", PDict follow_alice) ].

(** An Undo by mallory of its Follow of another actor *)
Definition undo_elsewhere : pydict :=
  [ ("type", PStr "Undo"); ("actor", PStr mallory); ("object", PDict follow_elsewhere) ].

(** An Undo of a Like *)
Definition undo_like : pydict :=
  [ ("type", PStr "Undo"); ("actor", PStr alice);
    ("object", PDict [ ("type", PStr "Like"); ("actor", PStr alice);
                       ("object", PStr "https://peer/objects/42") ]) ].

(** A Create whose embedded object has no id *)
Definition create_without_id : pydict :=
  [ ("type", PStr "Create"); ("actor", PStr alice);
    ("object", PDict [("type", PStr "Note")]) ].

(** A registration request that gives the id only *)
Definition chess_club_request : pydict := [ ("group_name", PStr "chess-club") ].

(** A registration request without an id *)
Definition nameless_request : pydict := [ ("name", PStr "No Name") ].


(** ** More examples, and rejection *)

(** The world after alice has followed book-club in the empty world. *)
Definition world_alice : world :=
  after (process (H:=demo_env) book_club follow_alice "m1" empty_world).

(** The world after alice has then published an object. *)
Definition world_posted : world :=
  after (process (H:=demo_env) book_club create_by_alice "u1" world_alice).

(** A computation rejects when, in every world, it does not return a value
    and leaves the world as it is. *)
Definition rejects {A} (m : M A) : Prop :=
  forall w, (m w).2 = w /\ forall r, (m w).1 ≠ Ok r.

(** * Properties *)

(** ** The membership queries *)

Section Store.
Implicit Types (t : gmap string GroupMember) (gid follower uuid : string).

Lemma edges_none t gid follower :
  edge_count gid follower t = 0%nat -> edges gid follower t = ∅.
Proof. unfold edge_count. apply map_size_empty_inv. Qed.

Lemma edges_save_new t gid follower uuid :
  edge_count gid follower t = 0%nat ->
  edges gid follower (<[uuid := mkGroupMember uuid follower gid]> t)
  = {[ uuid := mkGroupMember uuid follower gid ]}.
Proof.
  intros Hnone. unfold edges.
  rewrite map_filter_insert_True by (by split).
  fold (edges gid follower t). rewrite (edges_none _ _ _ Hnone).
  apply insert_empty.
Qed.

Lemma edge_count_save_new t gid follower uuid :
  edge_count gid follower t = 0%nat ->
  edge_count gid follower (<[uuid := mkGroupMember uuid follower gid]> t) = 1%nat.
Proof.
  intros Hnone. unfold edge_count.
  rewrite edges_save_new by done. apply map_size_singleton.
Qed.

Lemma first_edge_none t gid follower :
  edge_count gid follower t = 0%nat -> first_edge gid follower t = None.
Proof.
  intros Hnone. unfold first_edge.
  by rewrite (edges_none _ _ _ Hnone), map_to_list_empty.
Qed.

Lemma first_edge_save_new t gid follower uuid :
  edge_count gid follower t = 0%nat ->
  first_edge gid follower (<[uuid := mkGroupMember uuid follower gid]> t)
  = Some (mkGroupMember uuid follower gid).
Proof.
  intros Hnone. unfold first_edge.
  by rewrite edges_save_new, map_to_list_singleton.
Qed.

(** The row [q.first()] returns is a row of the table and matches the
    query. *)
Lemma first_edge_lookup t gid follower m :
  first_edge gid follower t = Some m ->
  exists k, t !! k = Some m /\ is_edge gid follower (k, m).
Proof.
  unfold first_edge. intros Hfirst.
  destruct (map_to_list (edges gid follower t)) as [|[k m'] l] eqn:Hl;
    simplify_eq/=.
  exists k.
  assert ((k, m) ∈ map_to_list (edges gid follower t)) as Hin
    by (rewrite Hl; left).
  apply elem_of_map_to_list, map_lookup_filter_Some in Hin. done.
Qed.

Lemma edge_count_delete_le t gid follower k :
  (edge_count gid follower (base.delete k t) <= edge_count gid follower t)%nat.
Proof.
  unfold edge_count, edges. rewrite map_filter_delete.
  apply map_subseteq_size, delete_subseteq.
Qed.

Lemma edge_count_save_other t gid follower k m :
  ¬ is_edge gid follower (k, m) ->
  (edge_count gid follower (<[k := m]> t) <= edge_count gid follower t)%nat.
Proof.
  intros Hother. unfold edge_count, edges.
  rewrite map_filter_insert_False by done.
  apply edge_count_delete_le.
Qed.

(** A follower is listed by [group_members] exactly when it has an edge. *)
Lemma elem_of_group_members t gid follower :
  follower ∈ group_members gid t <-> edge_count gid follower t ≠ 0%nat.
Proof.
  unfold group_members, edge_count. rewrite list_elem_of_fmap. split.
  - intros [[k m] [-> Hin]].
    apply elem_of_map_to_list, map_lookup_filter_Some in Hin as [Hk Hg].
    apply map_size_ne_0_lookup. exists k. unfold edges.
    apply (mk_is_Some _ m), map_lookup_filter_Some. by repeat split.
  - intros [k [m Hm]]%map_size_ne_0_lookup.
    apply map_lookup_filter_Some in Hm as [Hk [Hf Hg]].
    exists (k, m). split; [done|].
    apply elem_of_map_to_list, map_lookup_filter_Some. by split.
Qed.

End Store.

(** ** The handlers, path by path *)

Arguments edges : simpl never.
Arguments edge_count : simpl never.
Arguments first_edge : simpl never.
Arguments group_members : simpl never.

Section HandlerPaths.
Context `{Env}.
Implicit Types (group : Group) (activity : pydict) (w : world).

Ltac run_handler :=
  unfold bind, gets, ret, abort, raise, save_member, delete_member,
    save_activity, save_group, log_accept, log_announce, print, modify;
  simpl; rewrite ?String.eqb_refl; simpl.

Lemma py_eq_str s : py_eq (PStr s) (PStr s) = true.
Proof. simpl. apply String.eqb_refl. Qed.

(** Follow by a follower that has an edge: nothing happens. *)
Lemma follow_member group follower activity uuid4 w :
  valid_follow group follower activity ->
  edge_count (g_id group) follower (members w) ≠ 0%nat ->
  follow group activity uuid4 w = (Ok done, w).
Proof.
  intros [Hactor Htarget] Hcount. unfold follow.
  rewrite Hactor, Htarget, py_eq_str. run_handler.
  destruct (Nat.ltb_spec 0 (edge_count (g_id group) follower (members w)));
    [done | lia].
Qed.

(** Follow by a follower that has no edge: one edge is saved under the
    new uuid and one Accept is emitted. *)
Lemma follow_new group follower activity uuid4 w :
  valid_follow group follower activity ->
  edge_count (g_id group) follower (members w) = 0%nat ->
  follow group activity uuid4 w =
    (Ok done,
     mkWorld (groups w)
       (<[uuid4 := mkGroupMember uuid4 follower (g_id group)]> (members w))
       (activities w)
       (accepts w ++ [mkAccept group follower activity])
       (announces w) (stdout w)).
Proof.
  intros [Hactor Htarget] Hcount. unfold follow.
  rewrite Hactor, Htarget, py_eq_str. run_handler.
  by rewrite Hcount.
Qed.

(** Undo of a Follow by a follower that has no edge: nothing happens. *)
Lemma undo_absent group follower activity w :
  valid_undo_follow group follower activity ->
  edge_count (g_id group) follower (members w) = 0%nat ->
  undo group activity w = (Ok done, w).
Proof.
  intros (Hactor & action & ty & Hobject & Hty & Hlower & Hinner & Htarget) Hcount.
  unfold undo. rewrite Hactor, Hobject, Hty, Hlower, Hinner, Htarget, py_eq_str.
  run_handler. by rewrite first_edge_none.
Qed.

(** Undo of a Follow by a follower that has an edge: the row [q.first()]
    returns is deleted by its key. *)
Lemma undo_present group follower activity w membership :
  valid_undo_follow group follower activity ->
  first_edge (g_id group) follower (members w) = Some membership ->
  undo group activity w =
    (Ok done,
     mkWorld (groups w) (base.delete (gm_id membership) (members w))
       (activities w) (accepts w) (announces w) (stdout w)).
Proof.
  intros (Hactor & action & ty & Hobject & Hty & Hlower & Hinner & Htarget) Hfirst.
  unfold undo. rewrite Hactor, Hobject, Hty, Hlower, Hinner, Htarget, py_eq_str.
  run_handler. by rewrite Hfirst.
Qed.

(** Undo of anything whose type is a string that does not lower-case to
    "follow": nothing happens. *)
Lemma undo_other_type group activity w action ty :
  dict_get "object" activity = Some (PDict action) ->
  py_get "type" action = PStr ty ->
  lower ty ≠ "follow" ->
  undo group activity w = (Ok done, w).
Proof.
  intros Hobject Hty Hlower. unfold undo. rewrite Hobject, Hty.
  destruct (String.eqb_spec (lower ty) "follow"); [done|]. by run_handler.
Qed.

(** Undo of something that has no type: [None] has no [lower]. *)
Lemma undo_no_object group activity w :
  dict_get "object" activity = None ->
  undo group activity w = (Raise AttributeError, w).
Proof. intros Hobject. unfold undo. by rewrite Hobject. Qed.

Lemma undo_no_type group activity w action :
  dict_get "object" activity = Some (PDict action) ->
  dict_get "type" action = None ->
  undo group activity w = (Raise AttributeError, w).
Proof.
  intros Hobject Hty. unfold undo, py_get. by rewrite Hobject, Hty.
Qed.

(** Create by a member, with an object identifier. *)
Lemma create_member group activity uuid4 w actor oid :
  carries_object_id activity oid ->
  py_get "actor" activity = PStr actor ->
  actor ∈ group_members (g_id group) (members w) ->
  create group activity uuid4 w =
    (Ok (serialize_announce (announce_row group uuid4 oid)),
     announced group actor uuid4 oid w).
Proof.
  intros [Hsome Hoid] Hactor Hin. unfold create.
  assert (bool_decide
            (actor ∈ (list_to_set (group_members (g_id group) (members w))
                      : gset string)) = true) as Hmem
    by (apply bool_decide_eq_true, elem_of_list_to_set, Hin).
  destruct Hoid as [(s & -> & ->) | (d & -> & ->)].
  - rewrite Hactor. run_handler. by rewrite Hmem.
  - destruct (py_get "id" d) eqn:Hid; try done;
      rewrite Hactor; run_handler; by rewrite Hmem.
Qed.

(** Create by a non-member, with an object identifier. *)
Lemma create_not_member group activity uuid4 w actor oid :
  carries_object_id activity oid ->
  py_get "actor" activity = PStr actor ->
  actor ∉ group_members (g_id group) (members w) ->
  create group activity uuid4 w =
    (Abort 401 "actor needs to be member of the group", w).
Proof.
  intros [Hsome Hoid] Hactor Hin. unfold create.
  assert (bool_decide
            (actor ∈ (list_to_set (group_members (g_id group) (members w))
                      : gset string)) = false) as Hmem
    by (apply bool_decide_eq_false; by rewrite elem_of_list_to_set).
  destruct Hoid as [(s & -> & ->) | (d & -> & ->)].
  - rewrite Hactor. run_handler. by rewrite Hmem.
  - destruct (py_get "id" d) eqn:Hid; try done;
      rewrite Hactor; run_handler; by rewrite Hmem.
Qed.

(** Create by an actor that is no string, with an object identifier: a
    value that can be hashed is found in no set of follower ids. *)
Lemma create_not_string group activity uuid4 w oid :
  carries_object_id activity oid ->
  (forall a, py_get "actor" activity ≠ PStr a) ->
  py_hashable (py_get "actor" activity) = true ->
  create group activity uuid4 w =
    (Abort 401 "actor needs to be member of the group", w).
Proof.
  intros [Hsome Hoid] Hns Hhash. unfold create.
  destruct Hoid as [(s & -> & ->) | (d & -> & ->)].
  - destruct (py_get "actor" activity) as [| | |a| | |] eqn:Ha;
      try (by exfalso; apply (Hns a)); simpl in Hhash; try done;
      run_handler; by rewrite ?Hhash.
  - destruct (py_get "id" d) eqn:Hid; try done;
      destruct (py_get "actor" activity) as [| | |a| | |] eqn:Ha;
      try (by exfalso; apply (Hns a)); simpl in Hhash; try done;
      run_handler; by rewrite ?Hhash.
Qed.

(** A Create that goes through was issued by a member and carried an
    object identifier. *)
Lemma create_ok_inv group activity uuid4 w R w' :
  create group activity uuid4 w = (Ok R, w') ->
  exists actor oid,
    carries_object_id activity oid /\
    py_get "actor" activity = PStr actor /\
    actor ∈ group_members (g_id group) (members w) /\
    R = serialize_announce (announce_row group uuid4 oid) /\
    w' = announced group actor uuid4 oid w.
Proof.
  intros Hrun.
  assert (exists oid, carries_object_id activity oid) as [oid Hoid].
  { unfold create in Hrun.
    destruct (py_get "object" activity) as [| | |s| | |d] eqn:Hobj;
      try (by run_handler).
    - exists (PStr s). split; [done|]. left. by exists s.
    - exists (py_get "id" d). split; [|right; by exists d].
      intros Hid. revert Hrun. run_handler. by rewrite Hid. }
  assert (exists actor, py_get "actor" activity = PStr actor /\
            actor ∈ group_members (g_id group) (members w))
    as (actor & Hactor & Hin).
  { destruct (py_get "actor" activity) as [| | |a| | |] eqn:Hactor.
    4: { exists a. split; [done|].
         destruct (decide (a ∈ group_members (g_id group) (members w)))
           as [|Hout]; [done|].
         by rewrite (create_not_member _ _ _ _ a oid) in Hrun. }
    all: exfalso; revert Hrun; unfold create; rewrite Hactor;
      destruct Hoid as [Hsome [(s' & -> & ->) | (d' & -> & ->)]];
      [ run_handler; repeat case_match; done
      | destruct (py_get "id" d'); try done;
        run_handler; repeat case_match; done ]. }
  exists actor, oid. rewrite (create_member _ _ _ _ actor oid) in Hrun by done.
  by simplify_eq.
Qed.

(** A Create that does not go through leaves the world as it was. *)
Lemma create_failure_unchanged group activity uuid4 w :
  (exists R, outcome (create group activity uuid4 w) = Ok R) \/
  after (create group activity uuid4 w) = w.
Proof.
  unfold create, outcome, after. run_handler.
  repeat (case_match; simpl; eauto).
Qed.

End HandlerPaths.

(** ** What a request may change *)

Section Frames.
Context `{Env}.
Implicit Types (group : Group) (activity : pydict) (w : world).

Lemma preserves_ret {A B} (f : world -> B) (a : A) : preserves f (ret a).
Proof. done. Qed.

Lemma preserves_abort {A B} (f : world -> B) code msg :
  preserves f (abort (A:=A) code msg).
Proof. done. Qed.

Lemma preserves_raise {A B} (f : world -> B) e : preserves f (raise (A:=A) e).
Proof. done. Qed.

Lemma preserves_gets {A B} (f : world -> B) (g : world -> A) :
  preserves f (gets g).
Proof. done. Qed.

Lemma preserves_modify {B} (f : world -> B) (g : world -> world) :
  (forall w, f (g w) = f w) -> preserves f (modify g).
Proof. intros Hg w. apply Hg. Qed.

Lemma preserves_bind {A B C} (f : world -> C) (m : M A) (k : A -> M B) :
  preserves f m -> (forall a, preserves f (k a)) -> preserves f (bind m k).
Proof.
  intros Hm Hk w. unfold bind. specialize (Hm w).
  destruct (m w) as [[a| |] w']; simpl in *; [|done..].
  by rewrite Hk.
Qed.

Lemma preserves_py_len {B} (f : world -> B) v : preserves f (py_len v).
Proof. by destruct v. Qed.

Lemma preserves_py_contains {B} (f : world -> B) k v :
  preserves f (py_contains k v).
Proof. by destruct v. Qed.

Ltac frame :=
  cbv zeta;
  repeat first
    [ apply preserves_ret | apply preserves_abort | apply preserves_raise
    | apply preserves_gets | apply preserves_py_len
    | apply preserves_py_contains
    | apply preserves_modify; done
    | apply preserves_bind; [|intros ?]
    | case_match ].

Ltac run_all :=
  unfold bind, gets, ret, abort, raise, save_member, delete_member,
    save_activity, save_group, log_accept, log_announce, print, modify;
  simpl; repeat (case_match; simpl); try done.

(** Follow, Undo, Delete, the default handler and the registration never
    write the ledger. *)
Lemma follow_ledger group activity uuid4 :
  preserves activities (follow group activity uuid4).
Proof. unfold follow, save_member, log_accept. frame. Qed.

Lemma undo_ledger group activity : preserves activities (undo group activity).
Proof. unfold undo, delete_member. frame. Qed.

Lemma delete_ledger group activity : preserves activities (delete group activity).
Proof. unfold delete, print. frame. Qed.

Lemma follow_default_ledger group activity :
  preserves activities (follow_default group activity).
Proof. unfold follow_default, print. frame. Qed.

Lemma make_group_ledger request_json :
  preserves activities (make_group request_json).
Proof. unfold make_group, find_group, save_group. frame. Qed.

(** Create writes the ledger under its new id only. *)
Lemma create_ledger group activity uuid4 w k :
  k ≠ uuid4 ->
  activities (create group activity uuid4 w).2 !! k = activities w !! k.
Proof.
  intros Hk. destruct (create_failure_unchanged group activity uuid4 w)
    as [[R HR] | HR]; unfold outcome, after in HR; [|by rewrite HR].
  destruct (create group activity uuid4 w) as [r w'] eqn:Hrun.
  simpl in HR. subst r.
  apply create_ok_inv in Hrun as (actor & oid & _ & _ & _ & _ & ->).
  simpl. by rewrite lookup_insert_ne.
Qed.

(** A row of the ledger stays what it is, whatever request is served. *)
Lemma step_ledger w w' k row :
  step w w' -> activities w !! k = Some row -> activities w' !! k = Some row.
Proof.
  intros Hstep Hrow.
  destruct Hstep as [group activity uuid4 w Hm Ha | request_json w].
  - unfold process. destruct (registered _).
    + by rewrite (follow_ledger group activity uuid4 w).
    + by rewrite (undo_ledger group activity w).
    + rewrite (create_ledger group activity uuid4 w k); [done|].
      intros ->. congruence.
    + by rewrite (delete_ledger group activity w).
    + by rewrite (follow_default_ledger group activity w).
  - by rewrite (make_group_ledger request_json w).
Qed.

Lemma steps_ledger w w' k row :
  rtc step w w' -> activities w !! k = Some row -> activities w' !! k = Some row.
Proof. induction 1; eauto using step_ledger. Qed.

(** Create, Delete, the default handler and the registration never write
    the membership table. *)
Lemma create_members group activity uuid4 :
  preserves members (create group activity uuid4).
Proof. unfold create, log_announce, save_activity. frame. Qed.

Lemma delete_members group activity : preserves members (delete group activity).
Proof. unfold delete, print. frame. Qed.

Lemma follow_default_members group activity :
  preserves members (follow_default group activity).
Proof. unfold follow_default, print. frame. Qed.

Lemma make_group_members request_json :
  preserves members (make_group request_json).
Proof. unfold make_group, find_group, save_group. frame. Qed.

(** Follow keeps the membership a set. *)
Lemma follow_unique group activity uuid4 w :
  unique_edges w -> unique_edges (after (follow group activity uuid4 w)).
Proof.
  intros Hw gid follower. unfold after, follow. run_all; try apply Hw.
  match goal with
  | Hlt : (0 <? edge_count _ ?f _)%nat = false |- _ =>
      rename Hlt into Hcount; set (f0 := f) in *
  end.
  apply Nat.ltb_ge in Hcount.
  destruct (decide (is_edge gid follower
                      (uuid4, mkGroupMember uuid4 f0 (g_id group))))
    as [[Hf Hg] | Hother]; simpl in *.
  - subst. rewrite edge_count_save_new; [done | lia].
  - etrans; [by apply edge_count_save_other | apply Hw].
Qed.

(** Undo keeps the membership a set. *)
Lemma undo_unique group activity w :
  unique_edges w -> unique_edges (after (undo group activity w)).
Proof.
  intros Hw gid follower. unfold after, undo. run_all; try apply Hw.
  all: etrans; [apply edge_count_delete_le | apply Hw].
Qed.

Lemma step_unique w w' : step w w' -> unique_edges w -> unique_edges w'.
Proof.
  intros [group activity uuid4 w0 Hm Ha | request_json w0] Hw.
  - unfold process. destruct (registered _).
    + by apply follow_unique.
    + by apply undo_unique.
    + intros gid follower.
      rewrite (create_members group activity uuid4 w0). apply Hw.
    + intros gid follower.
      rewrite (delete_members group activity w0). apply Hw.
    + intros gid follower.
      rewrite (follow_default_members group activity w0). apply Hw.
  - intros gid follower. rewrite (make_group_members request_json w0). apply Hw.
Qed.

(** Every world the handlers can reach from the empty one has at most one
    edge for a (group, follower) pair. *)
Lemma reachable_unique w : rtc step empty_world w -> unique_edges w.
Proof.
  intros Hsteps.
  assert (unique_edges empty_world) as Hempty.
  { intros gid follower. unfold edge_count, edges. simpl.
    rewrite map_filter_empty, map_size_empty. lia. }
  revert Hempty. induction Hsteps; eauto using step_unique.
Qed.

End Frames.

(** * The claims *)

Section Claims.
Context `{Env}.
Implicit Types (group : Group) (activity : pydict) (w : world).

(** C1 (idempotent Follow).  In a world that has at most one edge for the
    pair, two well-addressed Follows of the same follower to the same group,
    one after the other, both return "done" and leave exactly one membership
    edge for the pair; the second call leaves the world of the first as it
    is: it saves no edge and emits no Accept. *)
Theorem follow_twice_one_edge group follower a1 a2 u1 u2 w :
  valid_follow group follower a1 ->
  valid_follow group follower a2 ->
  (edge_count (g_id group) follower (members w) <= 1)%nat ->
  let first := follow group a1 u1 w in
  let second := follow group a2 u2 (after first) in
  outcome first = Ok done /\
  outcome second = Ok done /\
  edge_count (g_id group) follower (members (after second)) = 1%nat /\
  after second = after first.
Proof.
  intros Ha1 Ha2 Hle first second. subst first second. unfold outcome, after.
  destruct (decide (edge_count (g_id group) follower (members w) = 0%nat))
    as [Hnone | Hsome].
  - rewrite (follow_new group follower a1 u1 w Ha1 Hnone). simpl.
    pose proof (edge_count_save_new (members w) (g_id group) follower u1 Hnone)
      as Hone.
    rewrite (follow_member group follower a2 u2 _ Ha2)
      by (simpl; rewrite Hone; lia).
    done.
  - rewrite (follow_member group follower a1 u1 w Ha1 Hsome). simpl.
    rewrite (follow_member group follower a2 u2 w Ha2 Hsome). simpl.
    repeat split; try done. lia.
Qed.

(** C6 (idempotent Undo).  A well-addressed Undo of a Follow, issued when
    the follower has no edge in the group, returns "done" and leaves the
    world, the membership with it, as it is. *)
Theorem undo_without_edge group follower activity w :
  valid_undo_follow group follower activity ->
  follower ∉ group_members (g_id group) (members w) ->
  outcome (undo group activity w) = Ok done /\
  after (undo group activity w) = w.
Proof.
  intros Hvalid Hout. unfold outcome, after.
  rewrite (undo_absent group follower activity w Hvalid); [done|].
  destruct (decide (edge_count (g_id group) follower (members w) = 0%nat))
    as [|Hsome]; [done|].
  by apply elem_of_group_members in Hsome.
Qed.

(** C7 (Follow/Undo inverse).  For a follower that is not a member, a
    well-addressed Follow saved under a fresh uuid and then a well-addressed
    Undo of it both return "done" and bring the membership table back to
    what it was, the follower absent from the group. *)
Theorem follow_then_undo group follower a_follow a_undo uuid4 w :
  valid_follow group follower a_follow ->
  valid_undo_follow group follower a_undo ->
  follower ∉ group_members (g_id group) (members w) ->
  members w !! uuid4 = None ->
  let first := follow group a_follow uuid4 w in
  let second := undo group a_undo (after first) in
  outcome first = Ok done /\
  outcome second = Ok done /\
  members (after second) = members w /\
  follower ∉ group_members (g_id group) (members (after second)).
Proof.
  intros Hf Hu Hout Hfresh first second. subst first second.
  unfold outcome, after.
  assert (edge_count (g_id group) follower (members w) = 0%nat) as Hnone.
  { destruct (decide (edge_count (g_id group) follower (members w) = 0%nat))
      as [|Hsome]; [done|].
    by apply elem_of_group_members in Hsome. }
  rewrite (follow_new group follower a_follow uuid4 w Hf Hnone). simpl.
  rewrite (undo_present group follower a_undo _
             (mkGroupMember uuid4 follower (g_id group)) Hu)
    by (simpl; by apply first_edge_save_new).
  simpl. rewrite delete_insert_eq, delete_id by done. done.
Qed.

(** C2, amended (membership gate on Create).  A Create that carries an
    object identifier and whose actor is not a member of the group, be it a
    string that is the id of no member or a value that is no string and can
    be looked up in a set (no actor at all, null, a boolean, a number), is
    rejected with status 401, and the world stays as it is: no announce is
    saved and the transport is not called. *)
Theorem create_by_non_member group activity uuid4 w oid :
  carries_object_id activity oid ->
  py_hashable (py_get "actor" activity) = true ->
  (forall actor,
     py_get "actor" activity = PStr actor ->
     actor ∉ group_members (g_id group) (members w)) ->
  outcome (create group activity uuid4 w) =
    Abort 401 "actor needs to be member of the group" /\
  after (create group activity uuid4 w) = w.
Proof.
  intros Hoid Hhash Hout. unfold outcome, after.
  assert ((exists a, py_get "actor" activity = PStr a) \/
          (forall a, py_get "actor" activity ≠ PStr a)) as [[a Ha] | Hns]
    by (destruct (py_get "actor" activity);
        first [ left; eexists; reflexivity | right; intros ? ?; discriminate ]).
  - by rewrite (create_not_member group activity uuid4 w a oid Hoid Ha
                  (Hout a Ha)).
  - by rewrite (create_not_string group activity uuid4 w oid Hoid Hns Hhash).
Qed.

(** C4 (ledger permanence).  When a Create returns the serialized record
    [R], the retrieval endpoint, asked for the record's id in any world
    reached by serving further requests, answers with the serialization of
    [R] itself: the id is the announce URI of the new uuid, the type is
    "Announce", the actor is the group's URI and the object is the stored
    payload decoded. *)
Theorem announce_served_forever group activity uuid4 w R w1 w2 :
  create group activity uuid4 w = (Ok R, w1) ->
  rtc step w1 w2 ->
  announce_activity uuid4 w2 = (Ok (activityjsonify R true), w2) /\
  exists oid,
    carries_object_id activity oid /\
    R = PDict [ ("id", PStr (announce_url uuid4));
                ("type", PStr "Announce");
                ("actor", PStr (actor_url (g_id group)));
                ("object", json_loads (json_dumps oid)) ].
Proof.
  intros Hrun Hsteps.
  apply create_ok_inv in Hrun as (actor & oid & Hoid & _ & _ & -> & ->).
  split; [|by exists oid].
  assert (activities w2 !! uuid4 = Some (announce_row group uuid4 oid)) as Hrow.
  { apply (steps_ledger _ _ _ _ Hsteps). simpl. apply lookup_insert_eq. }
  unfold announce_activity, bind, gets, ret. simpl. by rewrite Hrow.
Qed.

(** C8, amended (the ledger write).  The save of Create is keyed by the id
    and unconditional: when the id is already in the ledger the Create goes
    through all the same, the row of that id becomes the new record, the
    ledger keeps its size (no second row of that id) and every other row is
    as before. *)
Theorem create_replaces_row group activity uuid4 w old R w' :
  activities w !! uuid4 = Some old ->
  create group activity uuid4 w = (Ok R, w') ->
  exists oid,
    carries_object_id activity oid /\
    activities w' !! uuid4 = Some (announce_row group uuid4 oid) /\
    size (activities w') = size (activities w) /\
    forall k, k ≠ uuid4 -> activities w' !! k = activities w !! k.
Proof.
  intros Hold Hrun.
  apply create_ok_inv in Hrun as (actor & oid & Hoid & _ & _ & _ & ->).
  exists oid. simpl. split; [done|].
  split; [apply lookup_insert_eq|].
  split; [by apply map_size_insert_Some|].
  intros k Hk. by apply lookup_insert_ne.
Qed.

(** C10 (the Delete handler).  Delete is a registered handler; for every
    group, activity and world it returns [None] and leaves the groups, the
    membership, the ledger and the calls to the collaborators as they are:
    all it does is print a line. *)
Theorem delete_changes_nothing group activity w :
  registered (PStr "Delete") = HDelete /\
  outcome (delete group activity w) = Ok PNone /\
  groups (after (delete group activity w)) = groups w /\
  members (after (delete group activity w)) = members w /\
  activities (after (delete group activity w)) = activities w /\
  accepts (after (delete group activity w)) = accepts w /\
  announces (after (delete group activity w)) = announces w /\
  stdout (after (delete group activity w)) =
    (stdout w ++ [("created " ++ g_id group)%string])%list.
Proof. done. Qed.

End Claims.

(** ** Registration of a group *)

Section Registration.
Context `{Env}.

Local Arguments Nat.ltb : simpl never.



End Registration.

(** * The claims on the book club *)

(** The enumeration order of the three members is the store's. *)
Lemma book_club_members :
  group_members "book-club" (members world_abc) = [carol; alice; bob].
Proof. vm_compute. reflexivity. Qed.

(** C3 (the call of the announce transport).  With the members alice, bob
    and carol, a Create by alice calls the transport once, with the
    recipients bob and carol and the identifier of the object; the third
    argument is a one-element tuple that holds the announce URI, not the
    URI: the assignment to [announce_uri] ends in a comma. *)
Lemma create_passes_uri_in_tuple :
  let run := create (H:=demo_env) book_club create_by_alice "u1" world_abc in
  let uri := PStr (announce_url (Env:=demo_env) "u1") in
  announces (after run) =
    [ mkAnnounce book_club {[bob; carol]} (PStr "https://peer/objects/42")
        (PTuple [uri]) ] /\
  PTuple [uri] <> uri.
Proof. split; [vm_compute; reflexivity | discriminate]. Qed.

(** C5 (Undo of something that has no type).  An Undo that carries no
    object, and an Undo whose object has no [type], make the handler raise
    [AttributeError]: [action.get("type")] is [None], which has no
    [lower]. *)
Lemma undo_untyped_raises :
  undo (H:=demo_env) book_club undo_without_object world_abc
    = (Raise AttributeError, world_abc) /\
  undo (H:=demo_env) book_club undo_untyped_object world_abc
    = (Raise AttributeError, world_abc).
Proof. split; reflexivity. Qed.

(** C2 as stated fails: mallory is not a member, and the Create it sends
    without an object is rejected with status 400 before the membership is
    looked at, not with status 401. *)
Lemma create_gate_counterexample :
  let run := create (H:=demo_env) book_club create_without_object "u1" world_abc in
  py_get "actor" create_without_object = PStr mallory /\
  (mallory ∉ group_members (g_id book_club) (members world_abc)) /\
  outcome run = Abort 400 "activity not detailed" /\
  outcome run <> Abort 401 "actor needs to be member of the group".
Proof.
  split; [reflexivity|]. split; [|split; [reflexivity | discriminate]].
  apply (bool_decide_unpack _). vm_compute. exact I.
Qed.

(** C8 as stated fails: the ledger holds a record under the id a1, a Create
    that draws a1 again goes through, and the record of a1 is the new one. *)
Lemma ledger_append_counterexample :
  let run := create (H:=demo_env) book_club create_by_alice "a1" world_ledger in
  activities world_ledger !! "a1" =
    Some (mkGroupActivity "a1" "Announce" "book-club" "s:https://peer/objects/1") /\
  (exists R, outcome run = Ok R) /\
  activities (after run) !! "a1" =
    Some (mkGroupActivity "a1" "Announce" "book-club" "s:https://peer/objects/42").
Proof.
  split; [vm_compute; reflexivity|].
  split; [|vm_compute; reflexivity].
  eexists. vm_compute. reflexivity.
Qed.


(** ** Instances of the theorems *)

Lemma follow_twice_one_edge_witness :
  valid_follow (H:=demo_env) book_club alice follow_alice /\
  (edge_count (g_id book_club) alice (members empty_world) <= 1)%nat /\
  let first := follow (H:=demo_env) book_club follow_alice "m1" empty_world in
  let second := follow (H:=demo_env) book_club follow_alice "m2" (after first) in
  outcome first = Ok done /\
  outcome second = Ok done /\
  edge_count (g_id book_club) alice (members (after second)) = 1%nat /\
  after second = after first.
Proof.
  assert (valid_follow (H:=demo_env) book_club alice follow_alice) as Hvalid
    by (split; reflexivity).
  assert (edge_count (g_id book_club) alice (members empty_world) <= 1)%nat
    as Hcount by (vm_compute; lia).
  split; [exact Hvalid|]. split; [exact Hcount|].
  exact (follow_twice_one_edge (H:=demo_env) book_club alice
           follow_alice follow_alice "m1" "m2" empty_world
           Hvalid Hvalid Hcount).
Defined.

Lemma undo_without_edge_witness :
  valid_undo_follow (H:=demo_env) book_club alice undo_follow_alice /\
  (alice ∉ group_members (g_id book_club) (members empty_world)) /\
  outcome (undo (H:=demo_env) book_club undo_follow_alice empty_world) = Ok done /\
  after (undo (H:=demo_env) book_club undo_follow_alice empty_world) = empty_world.
Proof.
  assert (valid_undo_follow (H:=demo_env) book_club alice undo_follow_alice)
    as Hvalid
    by (split; [reflexivity|]; exists follow_alice, "Follow";
        repeat split; reflexivity).
  assert (alice ∉ group_members (g_id book_club) (members empty_world)) as Hout
    by (apply (bool_decide_unpack _); vm_compute; exact I).
  split; [exact Hvalid|]. split; [exact Hout|].
  exact (undo_without_edge (H:=demo_env) book_club alice undo_follow_alice
           empty_world Hvalid Hout).
Defined.

Lemma follow_then_undo_witness :
  valid_follow (H:=demo_env) book_club mallory follow_mallory /\
  valid_undo_follow (H:=demo_env) book_club mallory undo_follow_mallory /\
  (mallory ∉ group_members (g_id book_club) (members world_abc)) /\
  members world_abc !! "m4" = None /\
  let first := follow (H:=demo_env) book_club follow_mallory "m4" world_abc in
  let second := undo (H:=demo_env) book_club undo_follow_mallory (after first) in
  outcome first = Ok done /\
  outcome second = Ok done /\
  members (after second) = members world_abc /\
  mallory ∉ group_members (g_id book_club) (members (after second)).
Proof.
  assert (valid_follow (H:=demo_env) book_club mallory follow_mallory) as Hf
    by (split; reflexivity).
  assert (valid_undo_follow (H:=demo_env) book_club mallory undo_follow_mallory)
    as Hu
    by (split; [reflexivity|]; exists follow_mallory, "Follow";
        repeat split; reflexivity).
  assert (mallory ∉ group_members (g_id book_club) (members world_abc)) as Hout
    by (apply (bool_decide_unpack _); vm_compute; exact I).
  assert (members world_abc !! "m4" = None) as Hfresh
    by (vm_compute; reflexivity).
  split; [exact Hf|]. split; [exact Hu|].
  split; [exact Hout|]. split; [exact Hfresh|].
  exact (follow_then_undo (H:=demo_env) book_club mallory
           follow_mallory undo_follow_mallory "m4" world_abc Hf Hu Hout Hfresh).
Defined.

Lemma create_by_non_member_witness :
  carries_object_id create_by_mallory (PStr "https://peer/objects/666") /\
  py_hashable (py_get "actor" create_by_mallory) = true /\
  (forall actor,
     py_get "actor" create_by_mallory = PStr actor ->
     actor ∉ group_members (g_id book_club) (members world_abc)) /\
  outcome (create (H:=demo_env) book_club create_by_mallory "u1" world_abc) =
    Abort 401 "actor needs to be member of the group" /\
  after (create (H:=demo_env) book_club create_by_mallory "u1" world_abc) = world_abc.
Proof.
  assert (carries_object_id create_by_mallory (PStr "https://peer/objects/666"))
    as Hoid
    by (split; [discriminate|]; left; eexists; split; reflexivity).
  assert (py_hashable (py_get "actor" create_by_mallory) = true) as Hhash
    by reflexivity.
  assert (forall actor,
            py_get "actor" create_by_mallory = PStr actor ->
            actor ∉ group_members (g_id book_club) (members world_abc)) as Hout
    by (intros actor Hactor; injection Hactor as <-;
        apply (bool_decide_unpack _); vm_compute; exact I).
  split; [exact Hoid|]. split; [exact Hhash|]. split; [exact Hout|].
  exact (create_by_non_member (H:=demo_env) book_club create_by_mallory "u1"
           world_abc _ Hoid Hhash Hout).
Defined.

Lemma announce_served_forever_witness :
  let first := create (H:=demo_env) book_club create_by_alice "u1" world_abc in
  let later := process (H:=demo_env) book_club follow_mallory "m4" (after first) in
  first = (Ok (announce_of_alice "u1"), after first) /\
  rtc (step (H:=demo_env)) (after first) (after later) /\
  announce_activity (H:=demo_env) "u1" (after later) =
    (Ok (activityjsonify (Env:=demo_env) (announce_of_alice "u1") true),
     after later).
Proof.
  intros first later.
  assert (first = (Ok (announce_of_alice "u1"), after first)) as Hrun
    by (vm_compute; reflexivity).
  assert (rtc (step (H:=demo_env)) (after first) (after later)) as Hsteps.
  { apply rtc_once.
    apply (step_process (H:=demo_env) book_club follow_mallory "m4" (after first));
      vm_compute; reflexivity. }
  split; [exact Hrun|]. split; [exact Hsteps|].
  exact (proj1 (announce_served_forever (H:=demo_env) book_club create_by_alice
                  "u1" world_abc (announce_of_alice "u1") (after first)
                  (after later) Hrun Hsteps)).
Defined.

Lemma create_replaces_row_witness :
  let run := create (H:=demo_env) book_club create_by_alice "a1" world_ledger in
  activities world_ledger !! "a1" =
    Some (mkGroupActivity "a1" "Announce" "book-club" "s:https://peer/objects/1") /\
  run = (Ok (announce_of_alice "a1"), after run) /\
  exists oid,
    carries_object_id create_by_alice oid /\
    activities (after run) !! "a1" =
      Some (announce_row (H:=demo_env) book_club "a1" oid) /\
    size (activities (after run)) = size (activities world_ledger) /\
    forall k, k ≠ "a1" -> activities (after run) !! k = activities world_ledger !! k.
Proof.
  intros run.
  assert (activities world_ledger !! "a1" =
            Some (mkGroupActivity "a1" "Announce" "book-club"
                    "s:https://peer/objects/1")) as Hold
    by (vm_compute; reflexivity).
  assert (run = (Ok (announce_of_alice "a1"), after run)) as Hrun
    by (vm_compute; reflexivity).
  split; [exact Hold|]. split; [exact Hrun|].
  exact (create_replaces_row (H:=demo_env) book_club create_by_alice "a1"
           world_ledger _ (announce_of_alice "a1") (after run) Hold Hrun).
Defined.


(** * Further properties of the handlers *)

(** ** More on the tables *)

Section Tables.
Implicit Types (t : gmap string GroupMember) (gid follower : string).

(** [q.count] of the by-group query is the length of [group_members]. *)
Lemma length_group_members t gid :
  List.length (group_members gid t) = size (filter (in_group gid) t).
Proof.
  unfold group_members. by rewrite length_fmap, length_map_to_list.
Qed.

(** Two rows of a query that has at most one row are the same row. *)
Lemma edges_unique_row t gid follower k1 k2 m1 m2 :
  (edge_count gid follower t <= 1)%nat ->
  edges gid follower t !! k1 = Some m1 ->
  edges gid follower t !! k2 = Some m2 ->
  k1 = k2 /\ m1 = m2.
Proof.
  unfold edge_count. intros Hle H1 H2.
  destruct (decide (k1 = k2)) as [->|Hne]; [split; congruence|].
  exfalso.
  assert (size (base.delete k1 (edges gid follower t)) ≠ 0%nat) as Hne0.
  { apply map_size_ne_0_lookup. exists k2.
    rewrite lookup_delete_ne by done. eauto. }
  rewrite map_size_delete_Some in Hne0 by eauto. lia.
Qed.

Lemma edge_count_member t gid follower :
  follower ∈ group_members gid t -> edge_count gid follower t ≠ 0%nat.
Proof. apply elem_of_group_members. Qed.

Lemma edge_count_not_member t gid follower :
  follower ∉ group_members gid t -> edge_count gid follower t = 0%nat.
Proof.
  intros Hout. destruct (decide (edge_count gid follower t = 0%nat)); [done|].
  exfalso. by apply Hout, elem_of_group_members.
Qed.

(** A row saved under a fresh key adds one follower to its group. *)
Lemma group_members_save_fresh t gid follower uuid :
  t !! uuid = None ->
  List.length (group_members gid (<[uuid := mkGroupMember uuid follower gid]> t))
  = S (List.length (group_members gid t)).
Proof.
  intros Hfresh. rewrite !length_group_members.
  rewrite map_filter_insert_True by done.
  apply map_size_insert_None, map_lookup_filter_None. by left.
Qed.

(** A row saved under a fresh key leaves the other queries as they were. *)
Lemma edges_save_fresh_other t gid follower gid' follower' uuid :
  t !! uuid = None ->
  (gid', follower') ≠ (gid, follower) ->
  edges gid' follower' (<[uuid := mkGroupMember uuid follower gid]> t)
  = edges gid' follower' t.
Proof.
  intros Hfresh Hother. unfold edges.
  rewrite map_filter_insert_not'; [done| |].
  - intros [Hf Hg]. simpl in *. congruence.
  - intros y Hy. congruence.
Qed.

(** The row [first_edge] returns, in a table keyed by id. *)
Lemma first_edge_keyed t gid follower m :
  rows_keyed t ->
  first_edge gid follower t = Some m ->
  edges gid follower t !! gm_id m = Some m.
Proof.
  intros Hkeyed Hfirst.
  apply first_edge_lookup in Hfirst as (k & Hk & Hedge).
  rewrite (Hkeyed k m Hk).
  apply map_lookup_filter_Some. by split.
Qed.

Lemma first_edge_some t gid follower :
  edge_count gid follower t ≠ 0%nat ->
  exists m, first_edge gid follower t = Some m.
Proof.
  unfold edge_count, first_edge. intros Hne.
  destruct (map_to_list (edges gid follower t)) as [|[k m] l] eqn:Hl.
  - apply map_to_list_empty_iff in Hl. rewrite Hl, map_size_empty in Hne. done.
  - by exists m.
Qed.

End Tables.

(** ** More paths of the handlers *)

Section MorePaths.
Context `{Env}.
Implicit Types (group : Group) (activity : pydict) (w : world).

Local Arguments Nat.ltb : simpl never.

Ltac run_handler :=
  unfold bind, gets, ret, abort, raise, save_member, delete_member,
    save_activity, save_group, log_accept, log_announce, print, modify;
  simpl; rewrite ?String.eqb_refl; simpl.

Ltac frame :=
  cbv zeta;
  repeat first
    [ apply preserves_ret | apply preserves_abort | apply preserves_raise
    | apply preserves_gets | apply preserves_py_len
    | apply preserves_py_contains
    | apply preserves_modify; done
    | apply preserves_bind; [|intros ?]
    | case_match ].

Ltac run_all :=
  unfold bind, gets, ret, abort, raise, save_member, delete_member,
    save_activity, save_group, log_accept, log_announce, print, modify;
  simpl; repeat (case_match; simpl); try done.

(** Python's [==] against a string holds for that string only. *)
Lemma py_eq_str_iff (v : pyval) (s : string) :
  py_eq v (PStr s) = true <-> v = PStr s.
Proof.
  destruct v; simpl; try (split; [discriminate|done]).
  rewrite String.eqb_eq. split; congruence.
Qed.

Lemma py_eq_str_false (v : pyval) (s : string) :
  v ≠ PStr s -> py_eq v (PStr s) = false.
Proof.
  intros Hne. destruct (py_eq v (PStr s)) eqn:Heq; [|done].
  by apply py_eq_str_iff in Heq.
Qed.

(** What a Create writes to the ledger. *)
Lemma create_ledger_cases group activity uuid4 w :
  activities (create group activity uuid4 w).2 = activities w \/
  exists oid,
    activities (create group activity uuid4 w).2
    = <[uuid4 := announce_row group uuid4 oid]> (activities w).
Proof.
  destruct (create_failure_unchanged group activity uuid4 w) as [[R HR] | HR];
    unfold outcome, after in HR; [|left; by rewrite HR].
  destruct (create group activity uuid4 w) as [r w'] eqn:Hrun.
  simpl in HR. subst r.
  apply create_ok_inv in Hrun as (actor & oid & _ & _ & _ & _ & ->).
  right. by exists oid.
Qed.

(** What a Follow and an Undo write to the membership table. *)
Lemma follow_members_cases group activity uuid4 w :
  members (follow group activity uuid4 w).2 = members w \/
  exists follower,
    members (follow group activity uuid4 w).2
    = <[uuid4 := mkGroupMember uuid4 follower (g_id group)]> (members w).
Proof. unfold follow. run_all; eauto. Qed.

Lemma undo_members_cases group activity w :
  members (undo group activity w).2 = members w \/
  exists m,
    members (undo group activity w).2 = base.delete (gm_id m) (members w).
Proof. unfold undo. run_all; eauto. Qed.

(** The registration with the id, the name and the summary it ends up
    with, the defaults applied. *)
Lemma make_group_strings (d : pydict) (gid name summary : string) w :
  dict_get "group_name" d = Some (PStr gid) ->
  match dict_get "name" d with Some v => v | None => PStr gid end = PStr name ->
  match dict_get "summary" d with Some v => v | None => PStr EmptyString end
    = PStr summary ->
  make_group (PDict d) w =
    if (128 <? String.length gid)%nat then (Abort 400 "group_name too long", w)
    else if (256 <? String.length name)%nat then (Abort 400 "group_name too long", w)
    else if (2560 <? String.length summary)%nat then (Abort 400 "summary too long", w)
    else if String.eqb gid EmptyString then (Raise EngineKeyError, w)
    else match groups w !! gid with
         | Some _ => (Abort 403 EmptyString, w)
         | None =>
             (Ok (jsonify (PDict [("ok", PBool true)])),
              mkWorld (<[gid := mkGroup gid name summary]> (groups w))
                (members w) (activities w) (accepts w) (announces w) (stdout w))
         end.
Proof.
  intros Hg Hn Hs. unfold make_group.
  assert (py_truthy (PDict d) = true) as -> by (by destruct d).
  unfold py_contains, py_get. rewrite Hg, Hn, Hs.
  rewrite bool_decide_eq_true_2 by eauto.
  unfold find_group.
  destruct (String.eqb gid EmptyString);
    unfold bind, ret, abort, raise, gets, py_len, save_group, modify;
    cbn -[Nat.ltb]; repeat case_match; done.
Qed.

(** A request without the key [group_name]. *)
Lemma make_group_no_id (d : pydict) w :
  dict_get "group_name" d = None ->
  make_group (PDict d) w = (Abort 400 "Needs group_name", w).
Proof.
  intros Hg. unfold make_group.
  destruct (py_truthy (PDict d)); [|done].
  unfold py_contains. rewrite Hg.
  rewrite bool_decide_eq_false_2 by (by intros [? ?]). done.
Qed.

(** The query of a group reads the groups under an id that is not empty,
    and nothing else. *)
Lemma preserves_find_group {B} (f : world -> B) gid :
  preserves f (find_group gid).
Proof.
  unfold find_group. case_match; [apply preserves_raise | apply preserves_gets].
Qed.

Lemma find_group_given gid w :
  gid ≠ EmptyString -> find_group gid w = (Ok (groups w !! gid), w).
Proof.
  intros Hgiven. unfold find_group.
  by destruct (String.eqb_spec gid EmptyString).
Qed.

Lemma find_group_inv gid w found w' :
  find_group gid w = (Ok found, w') ->
  gid ≠ EmptyString /\ found = groups w !! gid /\ w' = w.
Proof.
  unfold find_group. destruct (String.eqb_spec gid EmptyString); [done|].
  unfold gets. intros Hrun. by simplify_eq.
Qed.

(** Rejections compose. *)
Lemma rejects_abort {A} code msg : rejects (abort (A:=A) code msg).
Proof. intros w. by split. Qed.

Lemma rejects_raise {A} e : rejects (raise (A:=A) e).
Proof. intros w. by split. Qed.

Lemma rejects_bind {A B} (m : M A) (k : A -> M B) :
  preserves (fun w => w) m -> (forall a, rejects (k a)) -> rejects (bind m k).
Proof.
  intros Hm Hk w. unfold bind. specialize (Hm w).
  destruct (m w) as [[a| |] w']; simpl in *; subst; [apply Hk|by split..].
Qed.

Ltac reject :=
  repeat first
    [ apply rejects_abort | apply rejects_raise
    | apply rejects_bind;
        [ first [ apply preserves_ret | apply preserves_gets
                | apply preserves_py_len | apply preserves_py_contains
                | apply preserves_find_group ]
        | intros ? ]
    | match goal with
      | |- rejects (if ?b then _ else _) => destruct b
      | |- rejects (match ?x with Some _ => _ | None => _ end) => destruct x
      end ].

(** A registration is not answered [Ok] and changes nothing, or it stores
    one group under the id of the request, which was free and is not
    empty. *)
Lemma make_group_cases request_json w :
  ((make_group request_json w).2 = w /\
   forall r, (make_group request_json w).1 ≠ Ok r) \/
  exists d gid name summary,
    request_json = PDict d /\
    dict_get "group_name" d = Some (PStr gid) /\
    gid ≠ EmptyString /\
    groups w !! gid = None /\
    make_group request_json w =
      (Ok (jsonify (PDict [("ok", PBool true)])),
       mkWorld (<[gid := mkGroup gid name summary]> (groups w))
         (members w) (activities w) (accepts w) (announces w) (stdout w)).
Proof.
  assert (forall m : M response, rejects m ->
            (m w).2 = w /\ forall r, (m w).1 ≠ Ok r) as Hrej
    by (intros m Hm; apply Hm).
  destruct request_json as [| b | z | s | l | l | d].
  1-6: left; apply Hrej; unfold make_group; cbn beta iota; reject.
  destruct (dict_get "group_name" d) as [gn|] eqn:Hg;
    [|left; by rewrite make_group_no_id].
  remember (match dict_get "name" d with Some v => v | None => gn end)
    as nm eqn:Hn.
  remember (match dict_get "summary" d with
            | Some v => v | None => PStr EmptyString end) as sm eqn:Hs.
  destruct gn as [| | |gid| | |].
  4: destruct nm as [| | |name| | |].
  7: destruct sm as [| | |summary| | |].
  10: { rewrite (make_group_strings d gid name summary w Hg
                   (eq_sym Hn) (eq_sym Hs)).
        destruct (128 <? String.length gid)%nat; [left; by split|].
        destruct (256 <? String.length name)%nat; [left; by split|].
        destruct (2560 <? String.length summary)%nat; [left; by split|].
        destruct (String.eqb_spec gid EmptyString); [left; by split|].
        destruct (groups w !! gid) eqn:Hfree; [left; by split|].
        right. by exists d, gid, name, summary. }
  all: left; apply Hrej; unfold make_group, py_get; rewrite Hg;
    cbn beta iota zeta; rewrite <- Hn, <- Hs; cbn beta iota; reject.
Qed.

(** No handler of an activity writes the table of the groups. *)
Lemma process_groups group activity uuid4 :
  preserves groups (process group activity uuid4).
Proof.
  unfold process. destruct (registered _);
    unfold follow, undo, create, delete, follow_default, save_member,
      delete_member, log_accept, log_announce, save_activity, print; frame.
Qed.

(** Serving a request keeps the membership rows under their ids. *)
Lemma step_keyed w w' :
  step w w' -> rows_keyed (members w) -> rows_keyed (members w').
Proof.
  intros [group activity uuid4 w0 Hm Ha | request_json w0] Hw.
  - unfold process. destruct (registered _).
    + destruct (follow_members_cases group activity uuid4 w0) as [-> | [f ->]];
        [done|]. by apply map_Forall_insert_2.
    + destruct (undo_members_cases group activity w0) as [-> | [m ->]];
        [done|]. by apply map_Forall_delete.
    + by rewrite (create_members group activity uuid4 w0).
    + by rewrite (delete_members group activity w0).
    + by rewrite (follow_default_members group activity w0).
  - by rewrite (make_group_members request_json w0).
Qed.

Lemma reachable_keyed w : rtc step empty_world w -> rows_keyed (members w).
Proof.
  intros Hsteps.
  assert (rows_keyed (members empty_world)) as Hempty
    by apply map_Forall_empty.
  revert Hempty. induction Hsteps; eauto using step_keyed.
Qed.

(** Serving a request keeps the ledger rows under their ids, Announces
    all. *)
Lemma step_ledger_ok w w' :
  step w w' -> ledger_rows_ok (activities w) -> ledger_rows_ok (activities w').
Proof.
  intros [group activity uuid4 w0 Hm Ha | request_json w0] Hw.
  - unfold process. destruct (registered _).
    + by rewrite (follow_ledger group activity uuid4 w0).
    + by rewrite (undo_ledger group activity w0).
    + destruct (create_ledger_cases group activity uuid4 w0) as [-> | [oid ->]];
        [done|]. by apply map_Forall_insert_2.
    + by rewrite (delete_ledger group activity w0).
    + by rewrite (follow_default_ledger group activity w0).
  - by rewrite (make_group_ledger request_json w0).
Qed.

Lemma reachable_ledger_ok w :
  rtc step empty_world w -> ledger_rows_ok (activities w).
Proof.
  intros Hsteps.
  assert (ledger_rows_ok (activities empty_world)) as Hempty
    by apply map_Forall_empty.
  revert Hempty. induction Hsteps; eauto using step_ledger_ok.
Qed.


(** Serving a request keeps the groups under their ids. *)
Lemma step_groups_keyed w w' :
  step w w' -> groups_keyed (groups w) -> groups_keyed (groups w').
Proof.
  intros [group activity uuid4 w0 Hm Ha | request_json w0] Hw.
  - by rewrite (process_groups group activity uuid4 w0).
  - destruct (make_group_cases request_json w0)
      as [[-> _] | (d & gid & name & summary & _ & _ & _ & Hfree & ->)];
      [done|].
    simpl. by apply map_Forall_insert_2.
Qed.

Lemma reachable_groups_keyed w :
  rtc step empty_world w -> groups_keyed (groups w).
Proof.
  intros Hsteps.
  assert (groups_keyed (groups empty_world)) as Hempty
    by apply map_Forall_empty.
  revert Hempty. induction Hsteps; eauto using step_groups_keyed.
Qed.

End MorePaths.

(** ** More on the tables: uniqueness and deletion *)

Section Rows.
Implicit Types (t : gmap string GroupMember) (gid follower : string).

(** Where no pair has two edges, no follower is listed twice. *)
Lemma group_members_NoDup t gid :
  (forall follower, (edge_count gid follower t <= 1)%nat) ->
  NoDup (group_members gid t).
Proof.
  intros Hle. unfold group_members.
  apply NoDup_fmap_2_strong; [|apply NoDup_map_to_list].
  intros [k1 m1] [k2 m2] H1 H2 Hf. simpl in Hf.
  apply elem_of_map_to_list, map_lookup_filter_Some in H1 as [H1 Hg1].
  apply elem_of_map_to_list, map_lookup_filter_Some in H2 as [H2 Hg2].
  unfold in_group in *. simpl in *.
  destruct (edges_unique_row t gid (gm_follower_id m1) k1 k2 m1 m2 (Hle _))
    as [-> ->]; [..|done].
  - apply map_lookup_filter_Some. by split.
  - apply map_lookup_filter_Some. split; [done|]. by split.
Qed.

(** A deleted row of a group takes one follower off its list. *)
Lemma group_members_delete t gid k m :
  t !! k = Some m -> gm_group_id m = gid ->
  S (List.length (group_members gid (base.delete k t)))
  = List.length (group_members gid t).
Proof.
  intros Hk Hg. rewrite !length_group_members, map_filter_delete.
  assert (filter (in_group gid) t !! k = Some m) as Hin
    by (by apply map_lookup_filter_Some).
  rewrite map_size_delete_Some by eauto.
  assert (size (filter (in_group gid) t) ≠ 0%nat)
    by (apply map_size_ne_0_lookup; eauto).
  lia.
Qed.

(** A deleted row leaves the other queries as they were. *)
Lemma edges_delete_other t gid follower gid' follower' k m :
  t !! k = Some m -> is_edge gid follower (k, m) ->
  (gid', follower') ≠ (gid, follower) ->
  edges gid' follower' (base.delete k t) = edges gid' follower' t.
Proof.
  intros Hk [Hf Hg] Hother. unfold edges. rewrite map_filter_delete.
  apply delete_id, map_lookup_filter_None. right.
  intros m' Hm' [Hf' Hg']. simplify_eq/=.
Qed.

(** The only row of a query, deleted, leaves the query empty. *)
Lemma edge_count_delete_row t gid follower m :
  (edge_count gid follower t <= 1)%nat ->
  edges gid follower t !! gm_id m = Some m ->
  edge_count gid follower (base.delete (gm_id m) t) = 0%nat.
Proof.
  unfold edge_count, edges. intros Hle Hm. rewrite map_filter_delete.
  rewrite map_size_delete_Some by eauto. lia.
Qed.

End Rows.

(** * Further properties, handler by handler *)

Section Extras.
Context `{Env}.
Implicit Types (group : Group) (activity : pydict) (w : world).

Local Arguments Nat.ltb : simpl never.

Ltac run_handler :=
  unfold bind, gets, ret, abort, raise, save_member, delete_member,
    save_activity, save_group, log_accept, log_announce, print, modify;
  simpl; rewrite ?String.eqb_refl; simpl.

Ltac frame :=
  cbv zeta;
  repeat first
    [ apply preserves_ret | apply preserves_abort | apply preserves_raise
    | apply preserves_gets | apply preserves_py_len
    | apply preserves_py_contains
    | apply preserves_modify; done
    | apply preserves_bind; [|intros ?]
    | case_match ].

(** X1 (Follow of another target).  A Follow whose object is not the actor
    URI of the group it was delivered to is refused with status 400 and the
    message "Wrong target", whoever the actor is; nothing is stored and no
    Accept is sent. *)
Theorem follow_rejects_wrong_target group activity uuid4 w :
  py_get "object" activity ≠ PStr (actor_url (g_id group)) ->
  follow group activity uuid4 w = (Abort 400 "Wrong target", w).
Proof. intros Hne. unfold follow. by rewrite py_eq_str_false. Qed.

(** X2 (Follow by a newcomer).  A well-addressed Follow by a follower that
    is not a member, saved under a fresh uuid, returns "done", makes the
    follower a member, makes the member list one longer, sends exactly one
    Accept (to this follower, for this activity) and changes the membership
    of no other (group, follower) pair. *)
Theorem follow_registers_follower group follower activity uuid4 w :
  valid_follow group follower activity ->
  follower ∉ group_members (g_id group) (members w) ->
  members w !! uuid4 = None ->
  let w' := after (follow group activity uuid4 w) in
  outcome (follow group activity uuid4 w) = Ok done /\
  follower ∈ group_members (g_id group) (members w') /\
  List.length (group_members (g_id group) (members w'))
    = S (List.length (group_members (g_id group) (members w))) /\
  accepts w' = (accepts w ++ [mkAccept group follower activity])%list /\
  (forall gid' follower',
     (gid', follower') ≠ (g_id group, follower) ->
     (follower' ∈ group_members gid' (members w') <->
      follower' ∈ group_members gid' (members w))).
Proof.
  intros Hv Hout Hfresh w'. subst w'. unfold outcome, after.
  apply edge_count_not_member in Hout.
  rewrite (follow_new group follower activity uuid4 w Hv Hout). simpl.
  split; [done|]. split.
  { apply elem_of_group_members. rewrite edge_count_save_new by done. lia. }
  split; [by apply group_members_save_fresh|].
  split; [done|].
  intros gid' follower' Hother. rewrite !elem_of_group_members.
  unfold edge_count. by rewrite edges_save_fresh_other.
Qed.

(** X3 (Undo of the Follow of another actor).  An Undo of a Follow whose
    embedded actor is not the actor of the Undo is refused with status 400
    and the message "Inconsistant follow activity", before the target is
    looked at; the world stays as it is. *)
Theorem undo_rejects_other_actor group follower activity action ty w :
  py_get "actor" activity = PStr follower ->
  dict_get "object" activity = Some (PDict action) ->
  py_get "type" action = PStr ty ->
  lower ty = "follow" ->
  py_get "actor" action ≠ PStr follower ->
  undo group activity w = (Abort 400 "Inconsistant follow activity", w).
Proof.
  intros Ha Ho Ht Hl Hne. unfold undo. rewrite Ho, Ht, Hl, Ha.
  by rewrite py_eq_str_false.
Qed.

(** X4 (Undo of a Follow of another target).  An Undo of a Follow by the
    same actor whose embedded object is not the actor URI of the group is
    refused with status 400 and the message "Wrong target"; the world stays
    as it is. *)
Theorem undo_rejects_wrong_target group follower activity action ty w :
  py_get "actor" activity = PStr follower ->
  dict_get "object" activity = Some (PDict action) ->
  py_get "type" action = PStr ty ->
  lower ty = "follow" ->
  py_get "actor" action = PStr follower ->
  py_get "object" action ≠ PStr (actor_url (g_id group)) ->
  undo group activity w = (Abort 400 "Wrong target", w).
Proof.
  intros Ha Ho Ht Hl Hi Hne. unfold undo.
  rewrite Ho, Ht, Hl, Ha, Hi, py_eq_str.
  by rewrite py_eq_str_false.
Qed.

(** X5 (Undo of something that is not a Follow).  An Undo whose embedded
    object has a string type that does not lower-case to "follow" returns
    "done" and leaves the world as it is, whatever its actor and target
    are: neither is checked. *)
Theorem undo_ignores_other_types group activity action ty w :
  dict_get "object" activity = Some (PDict action) ->
  py_get "type" action = PStr ty ->
  lower ty ≠ "follow" ->
  outcome (undo group activity w) = Ok done /\
  after (undo group activity w) = w.
Proof.
  intros Ho Ht Hl. unfold outcome, after.
  by rewrite (undo_other_type group activity w action ty).
Qed.

(** X6 (Undo by a member).  In a membership table whose rows are stored
    under their ids and that has at most one edge for the pair, a
    well-addressed Undo of a Follow by a member returns "done", removes the
    follower from the group, makes the member list one shorter, changes the
    membership of no other (group, follower) pair and touches neither the
    groups, the ledger nor the transports. *)
Theorem undo_removes_follower group follower activity w :
  valid_undo_follow group follower activity ->
  rows_keyed (members w) ->
  (edge_count (g_id group) follower (members w) <= 1)%nat ->
  follower ∈ group_members (g_id group) (members w) ->
  let w' := after (undo group activity w) in
  outcome (undo group activity w) = Ok done /\
  (follower ∉ group_members (g_id group) (members w')) /\
  S (List.length (group_members (g_id group) (members w')))
    = List.length (group_members (g_id group) (members w)) /\
  (forall gid' follower',
     (gid', follower') ≠ (g_id group, follower) ->
     (follower' ∈ group_members gid' (members w') <->
      follower' ∈ group_members gid' (members w))) /\
  groups w' = groups w /\ activities w' = activities w /\
  accepts w' = accepts w /\ announces w' = announces w.
Proof.
  intros Hv Hkeyed Hle Hin w'. subst w'. unfold outcome, after.
  apply edge_count_member in Hin.
  destruct (first_edge_some _ _ _ Hin) as [m Hm].
  pose proof (first_edge_keyed _ _ _ _ Hkeyed Hm) as Hrow.
  rewrite (undo_present group follower activity w m Hv Hm). simpl.
  pose proof Hrow as Hrow'. unfold edges in Hrow'.
  apply map_lookup_filter_Some in Hrow' as [Hk Hedge].
  split; [done|]. split.
  { rewrite elem_of_group_members. intros Hne. apply Hne.
    by apply edge_count_delete_row. }
  split.
  { apply (group_members_delete _ _ _ m); [done | apply Hedge]. }
  split; [|done].
  intros gid' follower' Hother. rewrite !elem_of_group_members.
  unfold edge_count.
  by rewrite (edges_delete_other _ (g_id group) follower gid' follower' _ m).
Qed.

(** X7 (the followers list).  The followers list of a group is, in every
    world, the collection built from [group_members]: its [totalItems] is
    the number of its [orderedItems], so the branch on [q.count > 0] makes
    no difference; the world is not changed. *)
Theorem followers_lists_members group w :
  followers group w =
    (Ok (followers_collection (group_members (g_id group) (members w))), w).
Proof.
  unfold followers, followers_collection, bind, gets, ret. cbn beta iota.
  rewrite length_group_members.
  destruct (Nat.ltb_spec 0 (size (filter (in_group (g_id group)) (members w))))
    as [Hpos | Hzero]; [done|].
  assert (group_members (g_id group) (members w) = []) as ->; [|done].
  apply nil_length_inv. rewrite length_group_members. lia.
Qed.

(** X8 (the membership is a set, one request at a time).  When the
    requests are served one at a time, each handler running to its end
    before the next one starts, then in every world reached from the empty
    one no (group, follower) pair has two edges, every membership row is
    stored under its own id, and no follower is listed twice among the
    members of a group.  Nothing is said of requests that run interleaved:
    Follow counts and then saves in two calls of the engine, and two Follows
    of one follower that both count before either saves leave two edges. *)
Theorem membership_is_a_set w :
  rtc step empty_world w ->
  unique_edges w /\
  rows_keyed (members w) /\
  forall gid, NoDup (group_members gid (members w)).
Proof.
  intros Hsteps. pose proof (reachable_unique w Hsteps) as Hu.
  split; [done|]. split; [by apply reachable_keyed|].
  intros gid. apply group_members_NoDup. intros follower. apply Hu.
Qed.

(** X9 (Create without an object).  A Create whose [object] is absent or
    null is refused with status 400 and the message "activity not
    detailed", whoever sent it; the world stays as it is. *)
Theorem create_refuses_missing_object group activity uuid4 w :
  py_get "object" activity = PNone ->
  create group activity uuid4 w = (Abort 400 "activity not detailed", w).
Proof. intros Ho. unfold create. by rewrite Ho. Qed.

(** X10 (Create of an object without an id).  A Create whose [object] is an
    embedded object with no [id], or a null one, is refused with status 400
    and the message "not external activity id", whoever sent it; the world
    stays as it is. *)
Theorem create_refuses_missing_id group activity d uuid4 w :
  py_get "object" activity = PDict d ->
  py_get "id" d = PNone ->
  create group activity uuid4 w = (Abort 400 "not external activity id", w).
Proof.
  intros Ho Hid. unfold create. rewrite Ho. run_handler. by rewrite Hid.
Qed.

(** X11 (a refused Create changes nothing).  Whenever Create does not
    return a record, be it a 400, a 401 or an exception, the world is
    exactly what it was: no row is saved and the transport is not
    called. *)
Theorem create_rejection_changes_nothing group activity uuid4 w :
  (forall R, outcome (create group activity uuid4 w) ≠ Ok R) ->
  after (create group activity uuid4 w) = w.
Proof.
  intros Hno.
  destruct (create_failure_unchanged group activity uuid4 w) as [[R HR] | HR];
    [by destruct (Hno R) | done].
Qed.

(** X12 (only members publish).  A Create that returns a record was sent by
    an actor given as a string that is a member of the group at that time,
    and carried an object identifier. *)
Theorem create_only_by_members group activity uuid4 w R w' :
  create group activity uuid4 w = (Ok R, w') ->
  exists actor oid,
    py_get "actor" activity = PStr actor /\
    actor ∈ group_members (g_id group) (members w) /\
    carries_object_id activity oid.
Proof.
  intros Hrun.
  apply create_ok_inv in Hrun as (actor & oid & Hoid & Hactor & Hin & _ & _).
  by exists actor, oid.
Qed.

(** X13 (the fan-out of a Create).  A Create that returns a record calls
    the announce transport exactly once, for this group and the object
    identifier of the activity; the recipients are the members of the group
    other than the actor, who never receives its own announce; the
    membership, the groups and the Accepts sent stay as they are. *)
Theorem create_fans_out_to_others group activity uuid4 w R w' :
  create group activity uuid4 w = (Ok R, w') ->
  exists actor oid call,
    py_get "actor" activity = PStr actor /\
    carries_object_id activity oid /\
    announces w' = (announces w ++ [call])%list /\
    announce_group call = group /\
    announce_object_id call = oid /\
    (actor ∉ announce_recipients call) /\
    (forall other,
       other ∈ announce_recipients call <->
       other ∈ group_members (g_id group) (members w) /\ other ≠ actor) /\
    members w' = members w /\ groups w' = groups w /\ accepts w' = accepts w.
Proof.
  intros Hrun.
  apply create_ok_inv in Hrun as (actor & oid & Hoid & Hactor & Hin & _ & ->).
  exists actor, oid,
    (mkAnnounce group (recipients group actor w) oid
       (PTuple [PStr (announce_url uuid4)])).
  simpl. unfold recipients.
  split; [done|]. split; [done|]. split; [done|]. split; [done|].
  split; [done|]. split.
  { intros [_ Hne]%elem_of_difference. apply Hne. by apply elem_of_singleton. }
  split; [|done].
  intros other.
  rewrite elem_of_difference, elem_of_list_to_set, elem_of_singleton. done.
Qed.

(** X14 (activities never touch the groups).  None of the five activity
    handlers (Follow, Undo, Create, Delete, the default one) writes the
    table of the groups, whatever the activity and whatever it answers. *)
Theorem handlers_keep_groups group activity uuid4 w :
  groups (after (follow group activity uuid4 w)) = groups w /\
  groups (after (undo group activity w)) = groups w /\
  groups (after (create group activity uuid4 w)) = groups w /\
  groups (after (delete group activity w)) = groups w /\
  groups (after (follow_default group activity w)) = groups w.
Proof.
  assert (preserves groups (follow group activity uuid4)) as Hf
    by (unfold follow, save_member, log_accept; frame).
  assert (preserves groups (undo group activity)) as Hu
    by (unfold undo, delete_member; frame).
  assert (preserves groups (create group activity uuid4)) as Hc
    by (unfold create, log_announce, save_activity; frame).
  unfold after. by rewrite Hf, Hu, Hc.
Qed.

(** X15 (Follow and Undo stay out of the ledger).  Whatever the activity
    and whatever they answer, Follow and Undo write no ledger row and never
    call the announce transport; Undo sends no Accept either. *)
Theorem follow_undo_keep_ledger group activity uuid4 w :
  activities (after (follow group activity uuid4 w)) = activities w /\
  announces (after (follow group activity uuid4 w)) = announces w /\
  activities (after (undo group activity w)) = activities w /\
  announces (after (undo group activity w)) = announces w /\
  accepts (after (undo group activity w)) = accepts w.
Proof.
  assert (preserves announces (follow group activity uuid4)) as Hf
    by (unfold follow, save_member, log_accept; frame).
  assert (preserves announces (undo group activity)) as Hu
    by (unfold undo, delete_member; frame).
  assert (preserves accepts (undo group activity)) as Ha
    by (unfold undo, delete_member; frame).
  unfold after.
  by rewrite (follow_ledger group activity uuid4 w),
    (undo_ledger group activity w), Hf, Hu, Ha.
Qed.

(** X16 (Create stays out of the membership).  Whatever the activity and
    whatever it answers, Create writes no membership row and sends no
    Accept. *)
Theorem create_keeps_membership group activity uuid4 w :
  members (after (create group activity uuid4 w)) = members w /\
  accepts (after (create group activity uuid4 w)) = accepts w.
Proof.
  assert (preserves accepts (create group activity uuid4)) as Ha
    by (unfold create, log_announce, save_activity; frame).
  unfold after. by rewrite (create_members group activity uuid4 w), Ha.
Qed.


(** X18 (every ledger row is served).  In every world the handlers reach
    from the empty one, a row of the ledger is stored under its own id and
    is an Announce, so the retrieval endpoint asked for that id answers with
    the serialization of the row: its 404 on the type is never taken. *)
Theorem ledger_rows_always_served w k row :
  rtc step empty_world w ->
  activities w !! k = Some row ->
  ga_id row = k /\
  ga_type row = "Announce" /\
  announce_activity k w =
    (Ok (activityjsonify (serialize_announce row) true), w).
Proof.
  intros Hsteps Hrow.
  destruct (reachable_ledger_ok w Hsteps k row Hrow) as [Hid Hty].
  split; [done|]. split; [done|].
  unfold announce_activity, bind, gets, ret, abort. simpl.
  by rewrite Hrow, Hty.
Qed.

(** X19 (the reads change nothing).  The followers list, the retrieval of
    an announce and the two views of a group leave the world exactly as it
    is, whatever they are asked and whatever they answer. *)
Theorem reads_change_nothing group announce_id group_name w :
  after (followers group w) = w /\
  after (announce_activity announce_id w) = w /\
  after (group_info group_name w) = w /\
  after (group_info_activity group_name w) = w.
Proof.
  assert (preserves (fun w => w) (followers group)) as Hf
    by (unfold followers; frame).
  assert (preserves (fun w => w) (announce_activity announce_id)) as Ha
    by (unfold announce_activity; frame).
  assert (preserves (fun w => w) (group_info group_name)) as Hi
    by (unfold group_info, find_group; frame).
  assert (preserves (fun w => w) (group_info_activity group_name)) as Hia
    by (unfold group_info_activity, find_group; frame).
  unfold after. by rewrite (Hf w), (Ha w), (Hi w), (Hia w).
Qed.

(** X20 (registration without an id).  A registration whose body is a JSON
    object without the key [group_name], the empty object included, is
    refused with status 400 and the message "Needs group_name"; no group is
    stored. *)
Theorem make_group_needs_id (d : pydict) w :
  dict_get "group_name" d = None ->
  make_group (PDict d) w = (Abort 400 "Needs group_name", w).
Proof. apply make_group_no_id. Qed.

(** X21 (the defaults of a registration).  A registration that gives only
    an id, not empty, of at most 128 characters and free, stores the group
    with the id as its name and the empty string as its summary, and
    answers [{"ok": true}]. *)
Theorem make_group_defaults (d : pydict) (gid : string) w :
  dict_get "group_name" d = Some (PStr gid) ->
  dict_get "name" d = None ->
  dict_get "summary" d = None ->
  gid ≠ EmptyString ->
  (String.length gid <= 128)%nat ->
  groups w !! gid = None ->
  make_group (PDict d) w =
    (Ok (jsonify (PDict [("ok", PBool true)])),
     mkWorld (<[gid := mkGroup gid gid EmptyString]> (groups w))
       (members w) (activities w) (accepts w) (announces w) (stdout w)).
Proof.
  intros Hg Hn Hs Hgiven Hlen Hfree.
  rewrite (make_group_strings d gid gid EmptyString w Hg)
    by (by rewrite ?Hn, ?Hs).
  destruct (Nat.ltb_spec 128 (String.length gid)); [lia|].
  destruct (Nat.ltb_spec 256 (String.length gid)); [lia|].
  destruct (Nat.ltb_spec 2560 (String.length EmptyString));
    [simpl in *; lia|].
  destruct (String.eqb_spec gid EmptyString); [done|].
  by rewrite Hfree.
Qed.

(** X22 (the first registration wins).  A registration that is answered
    [Ok] came with a JSON object whose [group_name] is a string that was
    free; from then on [find_group] finds the group under that id, and
    every further registration for the id, whatever name and summary it
    gives, is not answered [Ok] and leaves the world, the stored group with
    it, as it is. *)
Theorem make_group_first_wins request_json w r w' :
  make_group request_json w = (Ok r, w') ->
  exists (d : pydict) (gid name summary : string),
    request_json = PDict d /\
    dict_get "group_name" d = Some (PStr gid) /\
    groups w !! gid = None /\
    find_group gid w' = (Ok (Some (mkGroup gid name summary)), w') /\
    forall d' : pydict,
      dict_get "group_name" d' = Some (PStr gid) ->
      after (make_group (PDict d') w') = w' /\
      forall r', outcome (make_group (PDict d') w') ≠ Ok r'.
Proof.
  intros Hrun.
  destruct (make_group_cases request_json w)
    as [[_ Hno] | (d & gid & name & summary & -> & Hg & Hgiven & Hfree & Hok)].
  { rewrite Hrun in Hno. by destruct (Hno r). }
  rewrite Hok in Hrun. simplify_eq.
  exists d, gid, name, summary.
  split; [done|]. split; [done|]. split; [done|].
  split.
  { rewrite (find_group_given gid _ Hgiven). simpl.
    by rewrite lookup_insert_eq. }
  intros d' Hg'.
  set (w' := mkWorld (<[gid := mkGroup gid name summary]> (groups w))
               (members w) (activities w) (accepts w) (announces w) (stdout w)).
  destruct (make_group_cases (PDict d') w')
    as [Hrej | (d2 & gid2 & name2 & summary2 & Hd & Hg2 & _ & Hfree2 & _)];
    [done|].
  exfalso. simplify_eq. unfold w' in Hfree2. simpl in Hfree2.
  by rewrite lookup_insert_eq in Hfree2.
Qed.


(** X24 (the view of a group after its registration).  Once a registration
    that gives the id, the name and the summary as strings has been
    answered [Ok], the view of the group shows that id, that name and that
    summary, with the current followers of the id as members. *)
Theorem group_info_after_registration (d : pydict) (gid name summary : string)
    w r w' :
  dict_get "group_name" d = Some (PStr gid) ->
  dict_get "name" d = Some (PStr name) ->
  dict_get "summary" d = Some (PStr summary) ->
  make_group (PDict d) w = (Ok r, w') ->
  group_info gid w' =
    (Ok (jsonify (PDict [ ("group_name", PStr gid);
                          ("name", PStr name);
                          ("summary", PStr summary);
                          ("members",
                           PList (PStr <$> group_members gid (members w))) ])),
     w').
Proof.
  intros Hg Hn Hs Hrun.
  rewrite (make_group_strings d gid name summary w Hg) in Hrun
    by (by rewrite ?Hn, ?Hs).
  destruct (128 <? String.length gid)%nat; [done|].
  destruct (256 <? String.length name)%nat; [done|].
  destruct (2560 <? String.length summary)%nat; [done|].
  destruct (String.eqb_spec gid EmptyString) as [|Hgiven]; [done|].
  destruct (groups w !! gid); [done|]. simplify_eq.
  unfold group_info, bind. rewrite (find_group_given gid _ Hgiven). simpl.
  by rewrite lookup_insert_eq.
Qed.

(** X25 (unknown resources).  The retrieval endpoint asked for an id that
    is not in the ledger, and the two views asked for a name that is not
    registered, answer with status 404 and change nothing.  The name is a
    segment of the route, which is never empty. *)
Theorem unknown_gives_404 announce_id group_name w :
  activities w !! announce_id = None ->
  group_name ≠ EmptyString ->
  groups w !! group_name = None ->
  announce_activity announce_id w = (Abort 404 EmptyString, w) /\
  group_info group_name w = (Abort 404 EmptyString, w) /\
  group_info_activity group_name w = (Abort 404 EmptyString, w).
Proof.
  intros Ha Hgiven Hg.
  unfold announce_activity, group_info, group_info_activity, bind.
  rewrite (find_group_given group_name w Hgiven).
  unfold gets. simpl. by rewrite Ha, Hg.
Qed.

(** X26 (the activity feed after a Create).  After a Create for a
    registered group, whose id is not empty, has returned a record, the
    activity view of the group answers with the group's id, name and summary
    and a feed that holds the object identifier of the Create, as stored and
    decoded again. *)
Theorem activity_feed_after_create group activity uuid4 w R w' :
  g_id group ≠ EmptyString ->
  groups w !! g_id group = Some group ->
  create group activity uuid4 w = (Ok R, w') ->
  exists oid feed,
    carries_object_id activity oid /\
    json_loads (json_dumps oid) ∈ feed /\
    group_info_activity (g_id group) w' =
      (Ok (jsonify (PDict [ ("group_name", PStr (g_id group));
                            ("name", PStr (g_name group));
                            ("summary", PStr (g_summary group));
                            ("activity", PList feed) ])),
       w').
Proof.
  intros Hgiven Hreg Hrun.
  apply create_ok_inv in Hrun as (actor & oid & Hoid & _ & _ & _ & ->).
  exists oid,
    (group_activity (g_id group)
       (<[uuid4 := announce_row group uuid4 oid]> (activities w))).
  split; [done|]. split.
  - unfold group_activity. apply list_elem_of_fmap.
    exists (uuid4, announce_row group uuid4 oid). split; [done|].
    apply elem_of_map_to_list, map_lookup_filter_Some.
    split; [apply lookup_insert_eq | done].
  - unfold group_info_activity, bind.
    rewrite (find_group_given (g_id group) _ Hgiven). simpl.
    by rewrite Hreg.
Qed.

(** X27 (a group is found under its own id).  In every world the handlers
    reach from the empty one, the group [find_group] returns for a name has
    that name as its id, so the view of the group shows the name it was
    asked for, with the followers of that name as members. *)
Theorem found_group_has_its_id w group_name group :
  rtc step empty_world w ->
  find_group group_name w = (Ok (Some group), w) ->
  g_id group = group_name /\
  group_info group_name w =
    (Ok (jsonify (PDict [ ("group_name", PStr group_name);
                          ("name", PStr (g_name group));
                          ("summary", PStr (g_summary group));
                          ("members",
                           PList (PStr <$> group_members group_name
                                             (members w))) ])),
     w).
Proof.
  intros Hsteps Hfound.
  pose proof Hfound as (Hgiven & Hgroup & _)%find_group_inv.
  symmetry in Hgroup.
  pose proof (reachable_groups_keyed w Hsteps group_name group Hgroup) as Hid.
  split; [done|].
  unfold group_info, bind. rewrite Hfound. simpl. by rewrite Hid.
Qed.

End Extras.

(** ** Instances of the further properties *)

Lemma follow_rejects_wrong_target_witness :
  py_get "object" follow_elsewhere
    ≠ PStr (actor_url (Env:=demo_env) (g_id book_club)) /\
  follow (H:=demo_env) book_club follow_elsewhere "m4" world_abc
    = (Abort 400 "Wrong target", world_abc).
Proof.
  assert (py_get "object" follow_elsewhere
            ≠ PStr (actor_url (Env:=demo_env) (g_id book_club))) as Hne
    by (vm_compute; discriminate).
  split; [exact Hne|].
  exact (follow_rejects_wrong_target (H:=demo_env) book_club follow_elsewhere
           "m4" world_abc Hne).
Defined.

Lemma follow_registers_follower_witness :
  valid_follow (H:=demo_env) book_club mallory follow_mallory /\
  (mallory ∉ group_members (g_id book_club) (members world_abc)) /\
  members world_abc !! "m4" = None /\
  let w' := after (follow (H:=demo_env) book_club follow_mallory "m4" world_abc) in
  outcome (follow (H:=demo_env) book_club follow_mallory "m4" world_abc) = Ok done /\
  mallory ∈ group_members (g_id book_club) (members w') /\
  List.length (group_members (g_id book_club) (members w'))
    = S (List.length (group_members (g_id book_club) (members world_abc))).
Proof.
  assert (valid_follow (H:=demo_env) book_club mallory follow_mallory) as Hf
    by (split; reflexivity).
  assert (mallory ∉ group_members (g_id book_club) (members world_abc)) as Hout
    by (apply (bool_decide_unpack _); vm_compute; exact I).
  assert (members world_abc !! "m4" = None) as Hfresh
    by (vm_compute; reflexivity).
  split; [exact Hf|]. split; [exact Hout|]. split; [exact Hfresh|].
  pose proof (follow_registers_follower (H:=demo_env) book_club mallory
                follow_mallory "m4" world_abc Hf Hout Hfresh) as Hthm.
  cbv zeta in Hthm. cbv zeta.
  exact (conj (proj1 Hthm)
           (conj (proj1 (proj2 Hthm)) (proj1 (proj2 (proj2 Hthm))))).
Defined.

Lemma undo_rejects_other_actor_witness :
  py_get "actor" undo_of_another = PStr mallory /\
  py_get "actor" follow_alice ≠ PStr mallory /\
  undo (H:=demo_env) book_club undo_of_another world_abc
    = (Abort 400 "Inconsistant follow activity", world_abc).
Proof.
  assert (py_get "actor" follow_alice ≠ PStr mallory) as Hne
    by (vm_compute; discriminate).
  split; [reflexivity|]. split; [exact Hne|].
  exact (undo_rejects_other_actor (H:=demo_env) book_club mallory
           undo_of_another follow_alice "Follow" world_abc
           eq_refl eq_refl eq_refl eq_refl Hne).
Defined.

Lemma undo_rejects_wrong_target_witness :
  py_get "actor" undo_elsewhere = PStr mallory /\
  py_get "object" follow_elsewhere
    ≠ PStr (actor_url (Env:=demo_env) (g_id book_club)) /\
  undo (H:=demo_env) book_club undo_elsewhere world_abc
    = (Abort 400 "Wrong target", world_abc).
Proof.
  assert (py_get "object" follow_elsewhere
            ≠ PStr (actor_url (Env:=demo_env) (g_id book_club))) as Hne
    by (vm_compute; discriminate).
  split; [reflexivity|]. split; [exact Hne|].
  exact (undo_rejects_wrong_target (H:=demo_env) book_club mallory
           undo_elsewhere follow_elsewhere "Follow" world_abc
           eq_refl eq_refl eq_refl eq_refl eq_refl Hne).
Defined.

Lemma undo_ignores_other_types_witness :
  lower "Like" ≠ "follow" /\
  outcome (undo (H:=demo_env) book_club undo_like world_abc) = Ok done /\
  after (undo (H:=demo_env) book_club undo_like world_abc) = world_abc.
Proof.
  assert (lower "Like" ≠ "follow") as Hne by (vm_compute; discriminate).
  split; [exact Hne|].
  exact (undo_ignores_other_types (H:=demo_env) book_club undo_like
           [ ("type", PStr "Like"); ("actor", PStr alice);
             ("object", PStr "https://peer/objects/42") ]
           "Like" world_abc eq_refl eq_refl Hne).
Defined.

Lemma undo_removes_follower_witness :
  valid_undo_follow (H:=demo_env) book_club alice undo_follow_alice /\
  rows_keyed (members world_abc) /\
  (edge_count (g_id book_club) alice (members world_abc) <= 1)%nat /\
  alice ∈ group_members (g_id book_club) (members world_abc) /\
  let w' := after (undo (H:=demo_env) book_club undo_follow_alice world_abc) in
  outcome (undo (H:=demo_env) book_club undo_follow_alice world_abc) = Ok done /\
  (alice ∉ group_members (g_id book_club) (members w')) /\
  S (List.length (group_members (g_id book_club) (members w')))
    = List.length (group_members (g_id book_club) (members world_abc)).
Proof.
  assert (valid_undo_follow (H:=demo_env) book_club alice undo_follow_alice)
    as Hvalid
    by (split; [reflexivity|]; exists follow_alice, "Follow";
        repeat split; reflexivity).
  assert (rows_keyed (members world_abc)) as Hkeyed
    by (apply (bool_decide_unpack _); vm_compute; exact I).
  assert (edge_count (g_id book_club) alice (members world_abc) <= 1)%nat
    as Hle by (vm_compute; lia).
  assert (alice ∈ group_members (g_id book_club) (members world_abc)) as Hin
    by (apply (bool_decide_unpack _); vm_compute; exact I).
  split; [exact Hvalid|]. split; [exact Hkeyed|].
  split; [exact Hle|]. split; [exact Hin|].
  pose proof (undo_removes_follower (H:=demo_env) book_club alice
                undo_follow_alice world_abc Hvalid Hkeyed Hle Hin) as Hthm.
  cbv zeta in Hthm. cbv zeta.
  exact (conj (proj1 Hthm)
           (conj (proj1 (proj2 Hthm)) (proj1 (proj2 (proj2 Hthm))))).
Defined.

Lemma membership_is_a_set_witness :
  rtc (step (H:=demo_env)) empty_world world_alice /\
  unique_edges world_alice /\
  rows_keyed (members world_alice) /\
  forall gid, NoDup (group_members gid (members world_alice)).
Proof.
  assert (rtc (step (H:=demo_env)) empty_world world_alice) as Hsteps.
  { apply rtc_once.
    apply (step_process (H:=demo_env) book_club follow_alice "m1" empty_world);
      vm_compute; reflexivity. }
  split; [exact Hsteps|].
  exact (membership_is_a_set (H:=demo_env) world_alice Hsteps).
Defined.

Lemma create_refuses_missing_object_witness :
  py_get "object" create_without_object = PNone /\
  create (H:=demo_env) book_club create_without_object "u1" world_abc
    = (Abort 400 "activity not detailed", world_abc).
Proof.
  split; [reflexivity|].
  exact (create_refuses_missing_object (H:=demo_env) book_club create_without_object
           "u1" world_abc eq_refl).
Defined.

Lemma create_refuses_missing_id_witness :
  py_get "object" create_without_id = PDict [("type", PStr "Note")] /\
  create (H:=demo_env) book_club create_without_id "u1" world_abc
    = (Abort 400 "not external activity id", world_abc).
Proof.
  split; [reflexivity|].
  exact (create_refuses_missing_id (H:=demo_env) book_club create_without_id
           [("type", PStr "Note")] "u1" world_abc eq_refl eq_refl).
Defined.

Lemma create_rejection_changes_nothing_witness :
  (forall R, outcome (create (H:=demo_env) book_club create_by_mallory "u1"
                        world_abc) ≠ Ok R) /\
  after (create (H:=demo_env) book_club create_by_mallory "u1" world_abc)
    = world_abc.
Proof.
  assert (forall R, outcome (create (H:=demo_env) book_club create_by_mallory
                               "u1" world_abc) ≠ Ok R) as Hno
    by (intros R HR; vm_compute in HR; discriminate HR).
  split; [exact Hno|].
  exact (create_rejection_changes_nothing (H:=demo_env) book_club
           create_by_mallory "u1" world_abc Hno).
Defined.

Lemma create_only_by_members_witness :
  let run := create (H:=demo_env) book_club create_by_alice "u1" world_abc in
  run = (Ok (announce_of_alice "u1"), after run) /\
  exists actor oid,
    py_get "actor" create_by_alice = PStr actor /\
    actor ∈ group_members (g_id book_club) (members world_abc) /\
    carries_object_id create_by_alice oid.
Proof.
  intros run.
  assert (run = (Ok (announce_of_alice "u1"), after run)) as Hrun
    by (vm_compute; reflexivity).
  split; [exact Hrun|].
  exact (create_only_by_members (H:=demo_env) book_club create_by_alice "u1"
           world_abc (announce_of_alice "u1") (after run) Hrun).
Defined.

Lemma create_fans_out_to_others_witness :
  let run := create (H:=demo_env) book_club create_by_alice "u2" world_abc in
  run = (Ok (announce_of_alice "u2"), after run) /\
  exists actor oid call,
    py_get "actor" create_by_alice = PStr actor /\
    carries_object_id create_by_alice oid /\
    announces (after run) = (announces world_abc ++ [call])%list /\
    announce_group call = book_club /\
    announce_object_id call = oid /\
    (actor ∉ announce_recipients call) /\
    (forall other,
       other ∈ announce_recipients call <->
       other ∈ group_members (g_id book_club) (members world_abc) /\
       other ≠ actor) /\
    members (after run) = members world_abc /\
    groups (after run) = groups world_abc /\
    accepts (after run) = accepts world_abc.
Proof.
  intros run.
  assert (run = (Ok (announce_of_alice "u2"), after run)) as Hrun
    by (vm_compute; reflexivity).
  split; [exact Hrun|].
  exact (create_fans_out_to_others (H:=demo_env) book_club create_by_alice "u2"
           world_abc (announce_of_alice "u2") (after run) Hrun).
Defined.


Lemma ledger_rows_always_served_witness :
  let row := mkGroupActivity "u1" "Announce" "book-club"
               "s:https://peer/objects/42" in
  rtc (step (H:=demo_env)) empty_world world_posted /\
  activities world_posted !! "u1" = Some row /\
  ga_id row = "u1" /\
  ga_type row = "Announce" /\
  announce_activity (H:=demo_env) "u1" world_posted =
    (Ok (activityjsonify (Env:=demo_env)
           (serialize_announce (H:=demo_env) row) true),
     world_posted).
Proof.
  intros row.
  assert (rtc (step (H:=demo_env)) empty_world world_posted) as Hsteps.
  { apply (rtc_l _ _ world_alice).
    - apply (step_process (H:=demo_env) book_club follow_alice "m1" empty_world);
        vm_compute; reflexivity.
    - apply rtc_once.
      apply (step_process (H:=demo_env) book_club create_by_alice "u1"
               world_alice); vm_compute; reflexivity. }
  assert (activities world_posted !! "u1" = Some row) as Hrow
    by (vm_compute; reflexivity).
  split; [exact Hsteps|]. split; [exact Hrow|].
  exact (ledger_rows_always_served (H:=demo_env) world_posted "u1" row
           Hsteps Hrow).
Defined.

Lemma make_group_needs_id_witness :
  dict_get "group_name" nameless_request = None /\
  make_group (H:=demo_env) (PDict nameless_request) world_abc
    = (Abort 400 "Needs group_name", world_abc).
Proof.
  split; [reflexivity|].
  exact (make_group_needs_id (H:=demo_env) nameless_request world_abc eq_refl).
Defined.

Lemma make_group_defaults_witness :
  "chess-club" ≠ EmptyString /\
  (String.length "chess-club" <= 128)%nat /\
  groups world_abc !! "chess-club" = None /\
  make_group (H:=demo_env) (PDict chess_club_request) world_abc =
    (Ok (jsonify (Env:=demo_env) (PDict [("ok", PBool true)])),
     mkWorld (<["chess-club" := mkGroup "chess-club" "chess-club" EmptyString]>
                (groups world_abc))
       (members world_abc) (activities world_abc) (accepts world_abc)
       (announces world_abc) (stdout world_abc)).
Proof.
  assert ("chess-club" ≠ EmptyString) as Hgiven by discriminate.
  assert (String.length "chess-club" <= 128)%nat as Hlen by (simpl; lia).
  assert (groups world_abc !! "chess-club" = None) as Hfree
    by (vm_compute; reflexivity).
  split; [exact Hgiven|]. split; [exact Hlen|]. split; [exact Hfree|].
  exact (make_group_defaults (H:=demo_env) chess_club_request "chess-club"
           world_abc eq_refl eq_refl eq_refl Hgiven Hlen Hfree).
Defined.

Lemma make_group_first_wins_witness :
  let w' := mkWorld {[ "book-club" := book_club ]} ∅ ∅ [] [] [] in
  make_group (H:=demo_env) register_book_club empty_world =
    (Ok (PDict [("ok", PBool true)]), w') /\
  exists (d : pydict) (gid name summary : string),
    register_book_club = PDict d /\
    dict_get "group_name" d = Some (PStr gid) /\
    groups empty_world !! gid = None /\
    find_group gid w' = (Ok (Some (mkGroup gid name summary)), w') /\
    forall d' : pydict,
      dict_get "group_name" d' = Some (PStr gid) ->
      after (make_group (H:=demo_env) (PDict d') w') = w' /\
      forall r', outcome (make_group (H:=demo_env) (PDict d') w') ≠ Ok r'.
Proof.
  intros w'.
  assert (make_group (H:=demo_env) register_book_club empty_world =
            (Ok (PDict [("ok", PBool true)]), w')) as Hrun
    by (vm_compute; reflexivity).
  split; [exact Hrun|].
  exact (make_group_first_wins (H:=demo_env) register_book_club empty_world
           (PDict [("ok", PBool true)]) w' Hrun).
Defined.


Lemma group_info_after_registration_witness :
  let w' := mkWorld {[ "book-club" := book_club ]} ∅ ∅ [] [] [] in
  make_group (H:=demo_env) (PDict book_club_request) empty_world =
    (Ok (PDict [("ok", PBool true)]), w') /\
  group_info (H:=demo_env) "book-club" w' =
    (Ok (jsonify (Env:=demo_env)
           (PDict [ ("group_name", PStr "book-club");
                    ("name", PStr "Book Club");
                    ("summary", PStr "reads books");
                    ("members",
                     PList (PStr <$> group_members "book-club"
                                       (members empty_world))) ])),
     w').
Proof.
  intros w'.
  assert (make_group (H:=demo_env) (PDict book_club_request) empty_world =
            (Ok (PDict [("ok", PBool true)]), w')) as Hrun
    by (vm_compute; reflexivity).
  split; [exact Hrun|].
  exact (group_info_after_registration (H:=demo_env) book_club_request
           "book-club" "Book Club" "reads books" empty_world
           (PDict [("ok", PBool true)]) w' eq_refl eq_refl eq_refl Hrun).
Defined.

Lemma unknown_gives_404_witness :
  activities world_abc !! "a9" = None /\
  "chess-club" ≠ EmptyString /\
  groups world_abc !! "chess-club" = None /\
  announce_activity (H:=demo_env) "a9" world_abc
    = (Abort 404 EmptyString, world_abc) /\
  group_info (H:=demo_env) "chess-club" world_abc
    = (Abort 404 EmptyString, world_abc) /\
  group_info_activity (H:=demo_env) "chess-club" world_abc
    = (Abort 404 EmptyString, world_abc).
Proof.
  assert (activities world_abc !! "a9" = None) as Ha
    by (vm_compute; reflexivity).
  assert ("chess-club" ≠ EmptyString) as Hgiven by discriminate.
  assert (groups world_abc !! "chess-club" = None) as Hg
    by (vm_compute; reflexivity).
  split; [exact Ha|]. split; [exact Hgiven|]. split; [exact Hg|].
  exact (unknown_gives_404 (H:=demo_env) "a9" "chess-club" world_abc
           Ha Hgiven Hg).
Defined.

Lemma activity_feed_after_create_witness :
  let run := create (H:=demo_env) book_club create_by_alice "u3" world_abc in
  g_id book_club ≠ EmptyString /\
  groups world_abc !! g_id book_club = Some book_club /\
  run = (Ok (announce_of_alice "u3"), after run) /\
  exists oid feed,
    carries_object_id create_by_alice oid /\
    json_loads (Env:=demo_env) (json_dumps (Env:=demo_env) oid) ∈ feed /\
    group_info_activity (H:=demo_env) (g_id book_club) (after run) =
      (Ok (jsonify (Env:=demo_env)
             (PDict [ ("group_name", PStr (g_id book_club));
                      ("name", PStr (g_name book_club));
                      ("summary", PStr (g_summary book_club));
                      ("activity", PList feed) ])),
       after run).
Proof.
  intros run.
  assert (g_id book_club ≠ EmptyString) as Hgiven by discriminate.
  assert (groups world_abc !! g_id book_club = Some book_club) as Hreg
    by (vm_compute; reflexivity).
  assert (run = (Ok (announce_of_alice "u3"), after run)) as Hrun
    by (vm_compute; reflexivity).
  split; [exact Hgiven|]. split; [exact Hreg|]. split; [exact Hrun|].
  exact (activity_feed_after_create (H:=demo_env) book_club create_by_alice
           "u3" world_abc (announce_of_alice "u3") (after run)
           Hgiven Hreg Hrun).
Defined.

Lemma found_group_has_its_id_witness :
  let w := after (make_group (H:=demo_env) register_book_club empty_world) in
  rtc (step (H:=demo_env)) empty_world w /\
  find_group "book-club" w = (Ok (Some book_club), w) /\
  g_id book_club = "book-club" /\
  group_info (H:=demo_env) "book-club" w =
    (Ok (jsonify (Env:=demo_env)
           (PDict [ ("group_name", PStr "book-club");
                    ("name", PStr (g_name book_club));
                    ("summary", PStr (g_summary book_club));
                    ("members",
                     PList (PStr <$> group_members "book-club" (members w))) ])),
     w).
Proof.
  intros w.
  assert (rtc (step (H:=demo_env)) empty_world w) as Hsteps
    by (apply rtc_once;
        apply (step_make_group (H:=demo_env) register_book_club empty_world)).
  assert (find_group "book-club" w = (Ok (Some book_club), w)) as Hfound
    by (vm_compute; reflexivity).
  split; [exact Hsteps|]. split; [exact Hfound|].
  exact (found_group_has_its_id (H:=demo_env) w "book-club" book_club
           Hsteps Hfound).
Defined.
